(** * Order-fulfilment core of the storefront backend

    A shallow embedding of the inventory ledger
    (services/inventory_services.py, controllers/inventory_controller.py),
    the order materializer (services/order_services.py) and the payment
    session manager (services/payment_services.py), with the properties
    the specification states about them.

    Tables are finite maps where the source looks rows up by a unique key
    (inventory by product_id, products and orders by id) and lists in
    insertion order where a query takes [.first()] of several candidates
    (carts, cart items, order items, payments).  A SQLAlchemy session is a
    pair of stores, the committed one and the transaction's working copy;
    service code is written in a small state-and-exception monad over it. *)

From stdpp Require Import gmap strings list fin_maps pretty.
From Stdlib Require Import ZArith Lia Sorted.

Local Open Scope Z_scope.

(** ** Decimal money arithmetic *)

(** A [decimal.Decimal] with a non-positive exponent: the value is
    [coef * 10^(-places)].  Every Decimal the services build has this
    shape (string literals with a fraction, integers, their sums and
    products).  The context precision of 28 digits is not modelled. *)
Record Decimal := mkDecimal { coef : Z; places : nat }.

#[global] Instance Decimal_eq_dec : EqDecision Decimal.
Proof. solve_decision. Defined.

Definition pow10 (n : nat) : Z := 10 ^ Z.of_nat n.

(** [Decimal.__mul__]: coefficients multiply, exponents add. *)
Definition dec_mul (a b : Decimal) : Decimal :=
  mkDecimal (coef a * coef b) (places a + places b).

(** [Decimal.__add__] and [__sub__]: the result takes the smaller
    exponent, the other operand is padded with zeros. *)
Definition dec_add (a b : Decimal) : Decimal :=
  let n := Nat.max (places a) (places b) in
  mkDecimal (coef a * pow10 (n - places a) + coef b * pow10 (n - places b)) n.

Definition dec_sub (a b : Decimal) : Decimal :=
  let n := Nat.max (places a) (places b) in
  mkDecimal (coef a * pow10 (n - places a) - coef b * pow10 (n - places b)) n.

(** [Decimal(n)] for a Python int. *)
Definition dec_of_int (n : Z) : Decimal := mkDecimal n 0.

(** ROUND_HALF_UP of the quotient [n / d] ([d > 0]): to the nearest
    integer, ties away from zero. *)
Definition round_half_up (n d : Z) : Z :=
  Z.sgn n * ((2 * Z.abs n + d) / (2 * d)).

(** order_services.py, [_quantize_money]:
    [value.quantize(Decimal("0.01"), rounding=ROUND_HALF_UP)]. *)
Definition _quantize_money (value : Decimal) : Decimal :=
  if (places value <=? 2)%nat
  then mkDecimal (coef value * pow10 (2 - places value)) 2
  else mkDecimal (round_half_up (coef value) (pow10 (places value - 2))) 2.

(** [int(d)]: truncation towards zero. *)
Definition dec_to_int (d : Decimal) : Z := Z.quot (coef d) (pow10 (places d)).

(** Truth value of a Decimal: zero is falsy. *)
Definition dec_truthy (d : Decimal) : bool := negb (coef d =? 0).

(** ** Rows *)

(** models/inventory_model.py.  The row is keyed by its unique
    [product_id] in the table below. *)
Record Inventory := mkInventory {
  total_stock : Z;
  available_stock : Z;
  reserved_stock : Z
}.

(** models/product_model.py (the columns the core reads). *)
Record Product := mkProduct {
  prod_name : string;
  prod_price : Decimal;
  prod_status : string
}.

(** models/cart_model.py is not part of the sources; these are the
    columns the services and the cart repository read and write. *)
Record Cart := mkCart {
  cart_id : Z;
  cart_user_id : Z
}.

Record CartItem := mkCartItem {
  ci_id : Z;
  ci_cart_id : Z;
  ci_product_id : Z;
  ci_quantity : Z
}.

(** models/order_model.py. *)
Record Order := mkOrder {
  ord_user_id : Z;
  ord_total_items : Z;
  ord_subtotal : Decimal;
  ord_tax : Decimal;
  ord_discount : Decimal;
  ord_grand_total : Decimal;
  ord_status : string;
  ord_shipping_address : option string;
  ord_payment_method : option string
}.

Record OrderItem := mkOrderItem {
  oi_order_id : Z;
  oi_product_id : Z;
  oi_product_name : string;
  oi_unit_price : Decimal;
  oi_quantity : Z;
  oi_total_price : Decimal
}.

(** models/payment_model.py.  [create_payment_session] stores a session
    row without a gateway payment id and signature; they are [None] until
    a verification stores them.  The model declares both columns
    [nullable=False]; the embedding follows the service and lets the
    store hold such a row.  Rows without a payment id never collide under
    the uniqueness constraint on (order_id, razorpay_payment_id). *)
Record Payment := mkPayment {
  pay_id : Z;
  pay_order_id : Z;
  pay_user_id : Z;
  razorpay_order_id : string;
  razorpay_payment_id : option string;
  razorpay_signature : option string;
  pay_amount : Decimal;
  pay_currency : string;
  pay_status : string
}.

#[global] Instance Inventory_eq_dec : EqDecision Inventory.
Proof. solve_decision. Defined.
#[global] Instance Payment_eq_dec : EqDecision Payment.
Proof. solve_decision. Defined.

(** ** The relational store and the session *)

Record Store := mkStore {
  carts : list Cart;
  cart_items : list CartItem;
  products : gmap Z Product;
  inventory : gmap Z Inventory;
  orders : gmap Z Order;
  order_items : list OrderItem;
  payments : list Payment
}.

Definition set_cart_items (f : list CartItem → list CartItem) (s : Store) : Store :=
  mkStore (carts s) (f (cart_items s)) (products s) (inventory s) (orders s)
          (order_items s) (payments s).
Definition set_inventory (f : gmap Z Inventory → gmap Z Inventory) (s : Store) : Store :=
  mkStore (carts s) (cart_items s) (products s) (f (inventory s)) (orders s)
          (order_items s) (payments s).
Definition set_orders (f : gmap Z Order → gmap Z Order) (s : Store) : Store :=
  mkStore (carts s) (cart_items s) (products s) (inventory s) (f (orders s))
          (order_items s) (payments s).
Definition set_order_items (f : list OrderItem → list OrderItem) (s : Store) : Store :=
  mkStore (carts s) (cart_items s) (products s) (inventory s) (orders s)
          (f (order_items s)) (payments s).
Definition set_payments (f : list Payment → list Payment) (s : Store) : Store :=
  mkStore (carts s) (cart_items s) (products s) (inventory s) (orders s)
          (order_items s) (f (payments s)).

(** An order created at the payment gateway. *)
Record GatewayOrder := mkGatewayOrder {
  go_id : string;
  go_amount : Z;
  go_currency : string;
  go_receipt : string
}.

(** What persists between requests: the database and the orders that
    exist at the payment gateway. *)
Record World := mkWorld {
  db : Store;
  gateway : list GatewayOrder
}.

(** The state a service call runs in.  [committed] is what the database
    holds, [pending] is the view of the open transaction (the committed
    state plus this session's uncommitted writes), [lock_log] lists the
    inventory rows this session has read with [with_for_update()], oldest
    first, and [gateway_orders] is the gateway's state, which no database
    rollback undoes. *)
Record Session := mkSession {
  committed : Store;
  pending : Store;
  lock_log : list Z;
  gateway_orders : list GatewayOrder
}.

Inductive Exception :=
| HTTPException (status_code : Z) (detail : string)
| IntegrityError
| AttributeError
| GatewayError.

Inductive result (A : Type) :=
| Return (a : A)
| Raise (e : Exception).
Arguments Return {A} a.
Arguments Raise {A} e.

(** Service code: reads and writes the session, returns or raises. *)
Definition Db (A : Type) : Type := Session → result A * Session.

Definition ret {A} (a : A) : Db A := fun s => (Return a, s).
Definition raise {A} (e : Exception) : Db A := fun s => (Raise e, s).
Definition bind {A B} (m : Db A) (k : A → Db B) : Db B :=
  fun s => match m s with
           | (Return a, s') => k a s'
           | (Raise e, s') => (Raise e, s')
           end.

Notation "x <- m ;; k" := (bind m (fun x => k))
  (at level 100, m at next level, right associativity).
Notation "m ;;; k" := (bind m (fun _ => k))
  (at level 100, right associativity).

(** [try: m except IntegrityError: h]. *)
Definition try_integrity {A} (m h : Db A) : Db A :=
  fun s => match m s with
           | (Raise IntegrityError, s') => h s'
           | r => r
           end.

Definition read {A} (f : Store → A) : Db A := fun s => (Return (f (pending s)), s).
Definition write (f : Store → Store) : Db unit :=
  fun s => (Return tt, mkSession (committed s) (f (pending s)) (lock_log s)
                                 (gateway_orders s)).

(** [db.commit()]: the working copy becomes the database state. *)
Definition db_commit : Db unit :=
  fun s => (Return tt, mkSession (pending s) (pending s) (lock_log s)
                                 (gateway_orders s)).

(** [db.rollback()] and [db.close()]: uncommitted work is discarded. *)
Definition db_rollback : Db unit :=
  fun s => (Return tt, mkSession (committed s) (committed s) (lock_log s)
                                 (gateway_orders s)).

Definition open_session (w : World) : Session :=
  mkSession (db w) (db w) [] (gateway w).

(** One request against the database: a fresh session, the service call,
    and the session closed whatever the outcome (the [finally: db.close()]
    of PaymentService, the request-scoped [get_db] dependency of the
    controllers).  What is returned is the outcome and the database state
    the request leaves behind. *)
Definition run_request {A} (m : Db A) (w : World) : result A * World :=
  let '(r, s) := m (open_session w) in
  let '(_, s') := db_rollback s in
  (r, mkWorld (pending s') (gateway_orders s')).

(** ** Inventory ledger *)

(** repositories/inventory_repository.py, [get_by_product_id]. *)
Definition get_by_product_id (product_id : Z) : Db (option Inventory) :=
  read (fun st => inventory st !! product_id).

(** Attribute assignment on a loaded inventory row. *)
Definition store_inventory (product_id : Z) (inv : Inventory) : Db unit :=
  write (set_inventory <[product_id := inv]>).

(** inventory_services.py, [create_inventory_for_product].  [product_id]
    is declared unique: inserting a second row for a product is rejected
    by the database when the insert is flushed at commit. *)
Definition create_inventory_for_product (product_id stock : Z) : Db Inventory :=
  existing <- get_by_product_id product_id ;;
  match existing with
  | Some _ => raise IntegrityError
  | None =>
      let inventory := mkInventory stock stock 0 in
      store_inventory product_id inventory ;;;
      db_commit ;;;
      ret inventory
  end.

(** inventory_services.py, [validate_stock]. *)
Definition validate_stock (product_id quantity : Z) : Db bool :=
  inventory <- get_by_product_id product_id ;;
  match inventory with
  | None => raise (HTTPException 400 "Insufficient stock")
  | Some inv =>
      if available_stock inv <? quantity
      then raise (HTTPException 400 "Insufficient stock")
      else ret true
  end.

(** inventory_services.py, [reserve_stock]. *)
Definition reserve_stock (product_id quantity : Z) : Db Inventory :=
  inventory <- get_by_product_id product_id ;;
  match inventory with
  | None => raise (HTTPException 400 "Insufficient stock")
  | Some inv =>
      if available_stock inv <? quantity
      then raise (HTTPException 400 "Insufficient stock")
      else
        let inv' := mkInventory (total_stock inv)
                                (available_stock inv - quantity)
                                (reserved_stock inv + quantity) in
        store_inventory product_id inv' ;;;
        db_commit ;;;
        ret inv'
  end.

Definition query_order_items (order_id : Z) : Db (list OrderItem) :=
  read (fun st => filter (fun it => oi_order_id it = order_id) (order_items st)).

(** The loop of [finalize_stock]; a missing inventory row makes the
    attribute access on [None] raise. *)
Fixpoint finalize_items (items : list OrderItem) : Db unit :=
  match items with
  | [] => ret tt
  | item :: rest =>
      inventory <- get_by_product_id (oi_product_id item) ;;
      match inventory with
      | None => raise AttributeError
      | Some inv =>
          store_inventory (oi_product_id item)
            (mkInventory (total_stock inv - oi_quantity item)
                         (available_stock inv)
                         (reserved_stock inv - oi_quantity item)) ;;;
          finalize_items rest
      end
  end.

(** inventory_services.py, [finalize_stock]. *)
Definition finalize_stock (order_id : Z) : Db unit :=
  items <- query_order_items order_id ;;
  finalize_items items ;;;
  db_commit.

(** The loop of [rollback_stock]. *)
Fixpoint rollback_items (items : list OrderItem) : Db unit :=
  match items with
  | [] => ret tt
  | item :: rest =>
      inventory <- get_by_product_id (oi_product_id item) ;;
      match inventory with
      | None => raise AttributeError
      | Some inv =>
          store_inventory (oi_product_id item)
            (mkInventory (total_stock inv)
                         (available_stock inv + oi_quantity item)
                         (reserved_stock inv - oi_quantity item)) ;;;
          rollback_items rest
      end
  end.

(** inventory_services.py, [rollback_stock]. *)
Definition rollback_stock (order_id : Z) : Db unit :=
  items <- query_order_items order_id ;;
  match items with
  | [] => ret tt
  | _ => rollback_items items ;;; db_commit
  end.

(** controllers/inventory_controller.py, [update_inventory]
    (PUT /inventory/{product_id}). *)
Definition update_inventory (product_id new_total_stock : Z) : Db Inventory :=
  inventory <- get_by_product_id product_id ;;
  match inventory with
  | None => raise (HTTPException 404 "Inventory not found")
  | Some inv =>
      let diff := new_total_stock - total_stock inv in
      let inv' := mkInventory new_total_stock
                              (available_stock inv + diff)
                              (reserved_stock inv) in
      store_inventory product_id inv' ;;;
      db_commit ;;;
      ret inv'
  end.

(** ** Order materializer *)

(** The cart query of [create_order_from_cart]:
    [query(Cart).filter(Cart.user_id == user_id).first()]. *)
Definition query_cart (user_id : Z) : Db (option Cart) :=
  read (fun st => List.find (fun c => cart_user_id c =? user_id) (carts st)).

(** [cart.items]: the rows of the cart, in the order the relationship
    loads them.  The relationship is declared in models/cart_model.py,
    which is not part of the sources; the table's row order stands for
    it. *)
Definition cart_items_of (cart : Cart) : Db (list CartItem) :=
  read (fun st => filter (fun it => ci_cart_id it = cart_id cart) (cart_items st)).

(** [query(Product).filter(Product.id == pid, Product.status == "active").first()]. *)
Definition query_active_product (pid : Z) : Db (option Product) :=
  read (fun st =>
    match products st !! pid with
    | Some p => if String.eqb (prod_status p) "active" then Some p else None
    | None => None
    end).

(** [query(Inventory).filter(Inventory.product_id == pid).with_for_update().first()]:
    the row, when there is one, is locked by this transaction. *)
Definition query_inventory_for_update (pid : Z) : Db (option Inventory) :=
  fun s =>
    match inventory (pending s) !! pid with
    | Some inv =>
        (Return (Some inv),
         mkSession (committed s) (pending s) (lock_log s ++ [pid]) (gateway_orders s))
    | None => (Return None, s)
    end.

(** [db.add(order); db.flush()]: the row gets a primary key no other
    order has. *)
Definition add_order (o : Order) : Db Z :=
  fun s =>
    let order_id := fresh (dom (orders (pending s))) in
    (Return order_id,
     mkSession (committed s) (set_orders <[order_id := o]> (pending s))
               (lock_log s) (gateway_orders s)).

Definition add_order_item (it : OrderItem) : Db unit :=
  write (set_order_items (fun l => l ++ [it])).

(** [db.delete(item)] for a cart item. *)
Definition delete_cart_item (item : CartItem) : Db unit :=
  write (set_cart_items (filter (fun it => ci_id it ≠ ci_id item))).

(** The [for cart_item in valid_items] loop of [create_order_from_cart],
    with its accumulators [subtotal] and [total_items]. *)
Fixpoint order_lines (order_id : Z) (valid_items : list CartItem)
    (subtotal : Decimal) (total_items : Z) : Db (Decimal * Z) :=
  match valid_items with
  | [] => ret (subtotal, total_items)
  | cart_item :: rest =>
      product <- query_active_product (ci_product_id cart_item) ;;
      match product with
      | None => raise (HTTPException 400 "Product not available")
      | Some product =>
          inventory <- query_inventory_for_update (ci_product_id cart_item) ;;
          match inventory with
          | None => raise (HTTPException 400 "Inventory not found")
          | Some inv =>
              if available_stock inv <? ci_quantity cart_item
              then raise (HTTPException 400 "Insufficient stock")
              else
                store_inventory (ci_product_id cart_item)
                  (mkInventory (total_stock inv)
                               (available_stock inv - ci_quantity cart_item)
                               (reserved_stock inv + ci_quantity cart_item)) ;;;
                let unit_price := _quantize_money (prod_price product) in
                let line_total :=
                  _quantize_money
                    (dec_mul unit_price (dec_of_int (ci_quantity cart_item))) in
                add_order_item
                  (mkOrderItem order_id (ci_product_id cart_item)
                               (prod_name product) unit_price
                               (ci_quantity cart_item) line_total) ;;;
                order_lines order_id rest (dec_add subtotal line_total)
                            (total_items + ci_quantity cart_item)
          end
      end
  end.

(** [for item in valid_items: db.delete(item)]. *)
Fixpoint delete_cart_items (valid_items : list CartItem) : Db unit :=
  match valid_items with
  | [] => ret tt
  | item :: rest => delete_cart_item item ;;; delete_cart_items rest
  end.

(** An order loaded together with its items ([joinedload(Order.items)]). *)
Record LoadedOrder := mkLoadedOrder {
  lo_id : Z;
  lo_order : Order;
  lo_items : list OrderItem
}.

Definition query_order_with_items (order_id : Z) : Db (option LoadedOrder) :=
  read (fun st =>
    match orders st !! order_id with
    | Some o =>
        Some (mkLoadedOrder order_id o
                (filter (fun it => oi_order_id it = order_id) (order_items st)))
    | None => None
    end).

Definition TAX_RATE : Decimal := mkDecimal 18 2.
Definition ZERO_MONEY : Decimal := mkDecimal 0 2.

(** order_services.py, [OrderService.create_order_from_cart]. *)
Definition create_order_from_cart (user_id : Z)
    (shipping_address payment_method : option string) : Db (option LoadedOrder) :=
  cart <- query_cart user_id ;;
  match cart with
  | None => raise (HTTPException 400 "Cart not found or empty")
  | Some cart =>
      items <- cart_items_of cart ;;
      let valid_items := filter (fun item => 0 < ci_quantity item) items in
      match valid_items with
      | [] => raise (HTTPException 400 "Cart is empty or has no valid items")
      | _ =>
          order_id <- add_order (mkOrder user_id 0 ZERO_MONEY ZERO_MONEY ZERO_MONEY
                                         ZERO_MONEY "PENDING" shipping_address
                                         payment_method) ;;
          let discount := ZERO_MONEY in
          acc <- order_lines order_id valid_items ZERO_MONEY 0 ;;
          let '(subtotal, total_items) := acc in
          let tax := _quantize_money (dec_mul subtotal TAX_RATE) in
          let grand_total :=
            _quantize_money (dec_sub (dec_add subtotal tax) discount) in
          write (set_orders
                   <[order_id := mkOrder user_id total_items
                                         (_quantize_money subtotal) tax
                                         (_quantize_money discount) grand_total
                                         "PENDING" shipping_address
                                         payment_method]>) ;;;
          delete_cart_items valid_items ;;;
          db_commit ;;;
          query_order_with_items order_id
      end
  end.

Definition ALLOWED_STATUSES : list string :=
  ["PENDING"; "CONFIRMED"; "PAID"; "SHIPPED"; "DELIVERED"; "CANCELLED"].

Definition set_status (new_status : string) (o : Order) : Order :=
  mkOrder (ord_user_id o) (ord_total_items o) (ord_subtotal o) (ord_tax o)
          (ord_discount o) (ord_grand_total o) new_status
          (ord_shipping_address o) (ord_payment_method o).

(** order_services.py, [OrderService.update_status]. *)
Definition update_status (order_id : Z) (new_status : string) : Db Order :=
  if negb (existsb (String.eqb new_status) ALLOWED_STATUSES)
  then raise (HTTPException 400 ("Invalid order status '" +:+ new_status +:+ "'"))
  else
    order <- read (fun st => orders st !! order_id) ;;
    match order with
    | None => raise (HTTPException 404 "Order not found")
    | Some order =>
        let order := set_status new_status order in
        write (set_orders <[order_id := order]>) ;;;
        db_commit ;;;
        ret order
    end.

(** ** Payment session manager *)

(** The payment gateway client (utils/razorpay_client.py), an external
    capability.  [razorpay_new_order_id] is the id the gateway gives to an
    order created with this amount and receipt when these orders already
    exist there, or [None] when the API call raises;
    [verify_payment_signature] tells whether the signature check of
    (razorpay_order_id, razorpay_payment_id, razorpay_signature) passes. *)
Class RazorpayClient := {
  RAZORPAY_KEY_ID : string;
  razorpay_new_order_id : list GatewayOrder → Z → string → option string;
  verify_payment_signature : string → string → string → bool
}.

(** schemas/payment_schema.py. *)
Record PaymentSessionResponse := mkPaymentSessionResponse {
  psr_razorpay_order_id : string;
  psr_amount : Z;
  psr_currency : string;
  psr_key_id : string;
  psr_order_id : Z
}.

Record PaymentVerifyRequest := mkPaymentVerifyRequest {
  pvr_order_id : Z;
  pvr_razorpay_order_id : string;
  pvr_razorpay_payment_id : string;
  pvr_razorpay_signature : string
}.

(** The dictionary [verify_and_capture_payment] returns.  [amount] is
    the row's amount ([float(payment.amount)] in the source, read back as
    a Decimal by the PaymentRead schema). *)
Record PaymentRead := mkPaymentRead {
  pr_id : Z;
  pr_order_id : Z;
  pr_user_id : Z;
  pr_status : string;
  pr_amount : Decimal;
  pr_currency : string
}.

Definition payment_read (p : Payment) : PaymentRead :=
  mkPaymentRead (pay_id p) (pay_order_id p) (pay_user_id p) (pay_status p)
                (pay_amount p) (pay_currency p).

(** [int(Decimal(order.grand_total) * 100)]. *)
Definition amount_paise (grand_total : Decimal) : Z :=
  dec_to_int (dec_mul grand_total (dec_of_int 100)).

(** [query(Order).filter(Order.id == order_id, Order.user_id == user_id).first()]. *)
Definition query_order_for_user (order_id user_id : Z) : Db (option Order) :=
  read (fun st =>
    match orders st !! order_id with
    | Some o => if ord_user_id o =? user_id then Some o else None
    | None => None
    end).

Definition query_order (order_id : Z) : Db (option Order) :=
  read (fun st => orders st !! order_id).

(** The filter of the reuse query of [create_payment_session]:
    [Payment.order_id == order.id, Payment.user_id == user_id,
     Payment.status == "PENDING"]. *)
Definition pending_of (order_id user_id : Z) (p : Payment) : bool :=
  (pay_order_id p =? order_id) && (pay_user_id p =? user_id)
  && String.eqb (pay_status p) "PENDING".

Definition query_pending_payment (order_id user_id : Z) : Db (option Payment) :=
  read (fun st => List.find (pending_of order_id user_id) (payments st)).

(** The filter of the session lookup of [verify_and_capture_payment]:
    [Payment.order_id == data.order_id, Payment.user_id == user_id,
     Payment.razorpay_order_id == data.razorpay_order_id]. *)
Definition session_of (order_id user_id : Z) (rp_order_id : string) (p : Payment)
    : bool :=
  (pay_order_id p =? order_id) && (pay_user_id p =? user_id)
  && String.eqb (razorpay_order_id p) rp_order_id.

Definition query_payment_session (order_id user_id : Z) (rp_order_id : string)
    : Db (option Payment) :=
  read (fun st => List.find (session_of order_id user_id rp_order_id) (payments st)).

(** The re-read of the race handler: the first payment of this order
    with this gateway payment id. *)
Definition holds_capture (order_id : Z) (rp_payment_id : string) (p : Payment) : bool :=
  (pay_order_id p =? order_id)
  && match razorpay_payment_id p with
     | Some x => String.eqb x rp_payment_id
     | None => false
     end.

Definition query_payment_by_capture (order_id : Z) (rp_payment_id : string)
    : Db (option Payment) :=
  read (fun st => List.find (holds_capture order_id rp_payment_id) (payments st)).

(** The gateway call [razorpay_client.order.create]. *)
Definition razorpay_order_create `{RazorpayClient} (amount : Z) (receipt : string)
    : Db string :=
  fun s =>
    match razorpay_new_order_id (gateway_orders s) amount receipt with
    | None => (Raise GatewayError, s)
    | Some rp_order_id =>
        (Return rp_order_id,
         mkSession (committed s) (pending s) (lock_log s)
                   (gateway_orders s ++ [mkGatewayOrder rp_order_id amount "INR" receipt]))
    end.

(** The primary key an inserted payment row gets (autoincrement). *)
Definition next_payment_id (l : list Payment) : Z :=
  1 + foldr Z.max 0 (map pay_id l).

(** [db.add(payment)] for a new session row: it carries no gateway
    payment id, so the uniqueness constraint cannot reject it. *)
Definition add_payment (order_id user_id : Z) (rp_order_id : string)
    (amount : Decimal) : Db Payment :=
  fun s =>
    let p := mkPayment (next_payment_id (payments (pending s))) order_id user_id
                       rp_order_id None None amount "INR" "PENDING" in
    (Return p,
     mkSession (committed s) (set_payments (fun l => l ++ [p]) (pending s))
               (lock_log s) (gateway_orders s)).

(** Writing the changed attributes of a loaded payment row (by primary key). *)
Definition replace_payment (p : Payment) (l : list Payment) : list Payment :=
  map (fun q => if pay_id q =? pay_id p then p else q) l.

(** An update that leaves (order_id, razorpay_payment_id) alone. *)
Definition store_payment (p : Payment) : Db unit :=
  write (set_payments (replace_payment p)).

(** An update that sets razorpay_payment_id: the constraint
    [uq_order_payment_idempotent] (models/payment_model.py) rejects it
    when another row of the same order already holds that payment id. *)
Definition capture_conflicts (p : Payment) (q : Payment) : bool :=
  negb (pay_id q =? pay_id p)
  && (pay_order_id q =? pay_order_id p)
  && match razorpay_payment_id q, razorpay_payment_id p with
     | Some x, Some y => String.eqb x y
     | _, _ => false
     end.

Definition store_captured_payment (p : Payment) : Db unit :=
  fun s =>
    if existsb (capture_conflicts p) (payments (pending s))
    then (Raise IntegrityError, s)
    else write (set_payments (replace_payment p)) s.

Definition with_status (st : string) (p : Payment) : Payment :=
  mkPayment (pay_id p) (pay_order_id p) (pay_user_id p) (razorpay_order_id p)
            (razorpay_payment_id p) (razorpay_signature p) (pay_amount p)
            (pay_currency p) st.

Definition captured (rp_payment_id rp_signature : string) (p : Payment) : Payment :=
  mkPayment (pay_id p) (pay_order_id p) (pay_user_id p) (razorpay_order_id p)
            (Some rp_payment_id) (Some rp_signature) (pay_amount p)
            (pay_currency p) "SUCCESS".

(** payment_services.py, [PaymentService.create_payment_session]. *)
Definition create_payment_session `{RazorpayClient} (user_id : Z) (data_order_id : Z)
    : Db PaymentSessionResponse :=
  order <- query_order_for_user data_order_id user_id ;;
  match order with
  | None => raise (HTTPException 404 "Order not found for this user")
  | Some order =>
      if String.eqb (ord_status order) "PAID"
      then raise (HTTPException 400 "Order already paid")
      else
        existing_payment <- query_pending_payment data_order_id user_id ;;
        match existing_payment with
        | Some existing_payment =>
            ret (mkPaymentSessionResponse (razorpay_order_id existing_payment)
                   (amount_paise (ord_grand_total order)) "INR" RAZORPAY_KEY_ID
                   data_order_id)
        | None =>
            if negb (dec_truthy (ord_grand_total order))
            then raise (HTTPException 400 "Order has no payable amount")
            else
              let amount := amount_paise (ord_grand_total order) in
              rp_order_id <- razorpay_order_create amount
                               ("order_" +:+ pretty data_order_id) ;;
              payment <- add_payment data_order_id user_id rp_order_id
                           (ord_grand_total order) ;;
              db_commit ;;;
              ret (mkPaymentSessionResponse rp_order_id amount "INR"
                     RAZORPAY_KEY_ID data_order_id)
        end
  end.

(** payment_services.py, [PaymentService.verify_and_capture_payment]. *)
Definition verify_and_capture_payment `{RazorpayClient} (user_id : Z)
    (data : PaymentVerifyRequest) : Db PaymentRead :=
  payment <- query_payment_session (pvr_order_id data) user_id
               (pvr_razorpay_order_id data) ;;
  match payment with
  | None => raise (HTTPException 404 "Payment session not found")
  | Some payment =>
      if String.eqb (pay_status payment) "SUCCESS"
      then ret (payment_read payment)
      else if negb (verify_payment_signature (pvr_razorpay_order_id data)
                      (pvr_razorpay_payment_id data) (pvr_razorpay_signature data))
      then
        store_payment (with_status "FAILED" payment) ;;;
        db_commit ;;;
        raise (HTTPException 400 "Signature verification failed")
      else
        try_integrity
          (let payment := captured (pvr_razorpay_payment_id data)
                            (pvr_razorpay_signature data) payment in
           store_captured_payment payment ;;;
           order <- query_order (pay_order_id payment) ;;
           match order with
           | Some o =>
               if negb (String.eqb (ord_status o) "PAID")
               then write (set_orders <[pay_order_id payment := set_status "PAID" o]>)
               else ret tt
           | None => ret tt
           end ;;;
           db_commit ;;;
           ret (payment_read payment))
          (db_rollback ;;;
           existing <- query_payment_by_capture (pvr_order_id data)
                         (pvr_razorpay_payment_id data) ;;
           match existing with
           | None => raise AttributeError
           | Some existing => ret (payment_read existing)
           end)
  end.

(** ** Vocabulary of the properties *)



Definition balanced (inv : Inventory) : Prop :=
  total_stock inv = available_stock inv + reserved_stock inv.

Definition non_negative (inv : Inventory) : Prop :=
  0 ≤ available_stock inv ∧ 0 ≤ reserved_stock inv.

(** The ledger equation on every inventory row. *)
Definition ledger_balanced (w : World) : Prop :=
  map_Forall (fun _ inv => balanced inv) (inventory (db w)).

(** The invariant of the data model: the equation and both signs. *)
Definition ledger_invariant (w : World) : Prop :=
  map_Forall (fun _ inv => balanced inv ∧ non_negative inv) (inventory (db w)).

(** The operations that write inventory rows, each as one request. *)
Inductive InventoryOp :=
| OpCreate (product_id stock : Z)
| OpReserve (product_id quantity : Z)
| OpFinalize (order_id : Z)
| OpRelease (order_id : Z)
| OpAdminUpdate (product_id total_stock : Z)
| OpCheckout (user_id : Z) (shipping_address payment_method : option string).

Definition run_op (op : InventoryOp) (w : World) : World :=
  match op with
  | OpCreate pid stock => snd (run_request (create_inventory_for_product pid stock) w)
  | OpReserve pid q => snd (run_request (reserve_stock pid q) w)
  | OpFinalize oid => snd (run_request (finalize_stock oid) w)
  | OpRelease oid => snd (run_request (rollback_stock oid) w)
  | OpAdminUpdate pid total => snd (run_request (update_inventory pid total) w)
  | OpCheckout uid addr pm => snd (run_request (create_order_from_cart uid addr pm) w)
  end.

Definition run_ops (ops : list InventoryOp) (w : World) : World :=
  foldl (fun w op => run_op op w) w ops.

(** The operations that check before they subtract, called with a
    non-negative amount. *)
Definition guarded_op (op : InventoryOp) : Prop :=
  match op with
  | OpCreate _ stock => 0 ≤ stock
  | OpReserve _ q => 0 ≤ q
  | OpCheckout _ _ _ => True
  | OpFinalize _ | OpRelease _ | OpAdminUpdate _ _ => False
  end.

Definition empty_store : Store := mkStore [] [] ∅ ∅ ∅ [] [].
Definition empty_world : World := mkWorld empty_store [].

(** [m] keeps [I] on both the database and the transaction's view. *)
Definition preserves {A} (I : Store → Prop) (m : Db A) : Prop :=
  ∀ s r s', m s = (r, s') → I (committed s) → I (pending s) →
            I (committed s') ∧ I (pending s').

(** ** Sample worlds *)


(** What a granted reservation of [q] units makes of an inventory row. *)
Definition reserved_row (q : Z) (inv : Inventory) : Inventory :=
  mkInventory (total_stock inv) (available_stock inv - q) (reserved_stock inv + q).

(** A property of every inventory row of a store. *)
Definition every_row (P : Inventory → Prop) (st : Store) : Prop :=
  map_Forall (fun _ inv => P inv) (inventory st).

(** [m] leaves the component [proj] of the session as it found it. *)
Definition keeps {A X} (proj : Session → X) (m : Db A) : Prop :=
  ∀ s r s', m s = (r, s') → proj s' = proj s.

(** A failure of [m] leaves the component [proj] as [m] found it. *)
Definition keeps_on_failure {A X} (proj : Session → X) (m : Db A) : Prop :=
  ∀ s e s', m s = (Raise e, s') → proj s' = proj s.

(** A shopper (user 7) whose cart holds product 2 and then product 1;
    product 1 has five units at 10.00, product 2 one unit at 0.99. *)
Definition two_line_store (qty1 qty2 : Z) : Store :=
  mkStore [mkCart 1 7]
          [mkCartItem 1 1 2 qty2; mkCartItem 2 1 1 qty1]
          {[ 1 := mkProduct "A" (mkDecimal 1000 2) "active";
             2 := mkProduct "B" (mkDecimal 99 2) "active" ]}
          {[ 1 := mkInventory 5 5 0; 2 := mkInventory 1 1 0 ]}
          ∅ [] [].

Definition two_line_world (qty1 qty2 : Z) : World := mkWorld (two_line_store qty1 qty2) [].

(** The scenario of the specification: one product, stock 5, price 10.00,
    and a cart asking for three of it. *)
Definition scenario_world : World :=
  mkWorld (mkStore [mkCart 1 7] [mkCartItem 1 1 10 3]
                   {[ 10 := mkProduct "A" (mkDecimal 1000 2) "active" ]}
                   {[ 10 := mkInventory 5 5 0 ]} ∅ [] [])
          [].

(** The line items a checkout of this user works through: the cart's
    items of positive quantity, in the order the cart lists them. *)
Definition valid_items_of (st : Store) (user_id : Z) : list CartItem :=
  match List.find (fun c => cart_user_id c =? user_id) (carts st) with
  | Some cart =>
      filter (fun item => 0 < ci_quantity item)
             (filter (fun it => ci_cart_id it = cart_id cart) (cart_items st))
  | None => []
  end.

(** The lines a checkout prices. *)
Definition line_of_cart_item (ci : CartItem) : Z * Z := (ci_product_id ci, ci_quantity ci).
Definition line_of_order_item (it : OrderItem) : Z * Z := (oi_product_id it, oi_quantity it).

Definition sum_line_totals (lines : list OrderItem) : Z :=
  foldr (fun it acc => coef (oi_total_price it) + acc) 0 lines.

Definition sum_quantities (lines : list OrderItem) : Z :=
  foldr (fun it acc => oi_quantity it + acc) 0 lines.

(** An order item of order [oid] priced from the catalogue [catalog]: the
    unit price is the active product's price rounded to the cent, the
    line total is unit price times quantity, a whole number of cents. *)
Definition line_priced (catalog : gmap Z Product) (oid : Z) (it : OrderItem) : Prop :=
  oi_order_id it = oid
  ∧ (∃ p, catalog !! oi_product_id it = Some p
          ∧ prod_status p = "active"
          ∧ oi_product_name it = prod_name p
          ∧ oi_unit_price it = _quantize_money (prod_price p))
  ∧ oi_total_price it
    = _quantize_money (dec_mul (oi_unit_price it) (dec_of_int (oi_quantity it)))
  ∧ oi_total_price it = mkDecimal (coef (oi_unit_price it) * oi_quantity it) 2.

(** ** Vocabulary of the payment properties *)

(** The payment row a verification request addresses. *)
Definition find_session (st : Store) (user_id : Z) (data : PaymentVerifyRequest)
    : option Payment :=
  List.find (session_of (pvr_order_id data) user_id (pvr_razorpay_order_id data))
            (payments st).

(** Whether the gateway accepts the signature of a verification request. *)
Definition signature_ok `{RazorpayClient} (data : PaymentVerifyRequest) : bool :=
  verify_payment_signature (pvr_razorpay_order_id data) (pvr_razorpay_payment_id data)
                           (pvr_razorpay_signature data).

(** The row a successful verification of [data] makes of [p]. *)
Definition captured_by (data : PaymentVerifyRequest) (p : Payment) : Payment :=
  captured (pvr_razorpay_payment_id data) (pvr_razorpay_signature data) p.

(** The order update of a capture: the order becomes PAID unless it is
    missing or PAID already. *)
Definition mark_paid (order_id : Z) (st : Store) : Store :=
  match orders st !! order_id with
  | Some o =>
      if negb (String.eqb (ord_status o) "PAID")
      then set_orders <[order_id := set_status "PAID" o]> st
      else st
  | None => st
  end.

(** Storing [p'] would violate [uq_order_payment_idempotent]: another row
    of the same order already holds its gateway payment id. *)
Definition uniqueness_violated_by (p' : Payment) (l : list Payment) : Prop :=
  ∃ q x, q ∈ l ∧ pay_id q ≠ pay_id p' ∧ pay_order_id q = pay_order_id p'
         ∧ razorpay_payment_id q = Some x ∧ razorpay_payment_id p' = Some x.

(** The payments table respects its primary key and the constraint
    [uq_order_payment_idempotent] on (order_id, razorpay_payment_id). *)
Definition payments_wf (l : list Payment) : Prop :=
  NoDup (map pay_id l)
  ∧ ∀ p q x, p ∈ l → q ∈ l → pay_order_id p = pay_order_id q →
             razorpay_payment_id p = Some x → razorpay_payment_id q = Some x →
             pay_id p = pay_id q.

(** The SUCCESS rows of an order that hold a gateway payment id. *)
Definition success_rows (order_id : Z) (rp_payment_id : string) (l : list Payment)
    : list Payment :=
  List.filter (fun p => holds_capture order_id rp_payment_id p
                        && String.eqb (pay_status p) "SUCCESS") l.

(** The session descriptor [create_payment_session] answers with for an
    order and a gateway order id. *)
Definition session_descriptor `{RazorpayClient} (order_id : Z) (order : Order)
    (rp_order_id : string) : PaymentSessionResponse :=
  mkPaymentSessionResponse rp_order_id (amount_paise (ord_grand_total order)) "INR"
                           RAZORPAY_KEY_ID order_id.

(** A gateway for the examples: the n-th order it creates is called
    "order_n", and a signature is accepted when it is the payment id
    followed by "|ok". *)
Definition sample_client : RazorpayClient :=
  {| RAZORPAY_KEY_ID := "rzp_test_key";
     razorpay_new_order_id := fun existing _ _ =>
       Some ("order_" +:+ pretty (Z.of_nat (length existing)));
     verify_payment_signature := fun _ rp_payment_id signature =>
       String.eqb signature (rp_payment_id +:+ "|ok") |}.

(** User 7 owns order 1 (grand total 35.40); [status] is the order's
    status and [rows] the payments table. *)
Definition payment_world (status : string) (rows : list Payment) : World :=
  mkWorld (mkStore [] [] ∅ ∅
             {[ 1 := mkOrder 7 3 (mkDecimal 3000 2) (mkDecimal 540 2) ZERO_MONEY
                             (mkDecimal 3540 2) status None None ]}
             [] rows)
          [].

Definition session_row (id : Z) (rp_order_id : string) (status : string) : Payment :=
  mkPayment id 1 7 rp_order_id None None (mkDecimal 3540 2) "INR" status.

(** One PENDING session for order 1, and two verification requests for
    it: one whose signature the sample gateway accepts, one it rejects. *)
Definition one_session_world : World :=
  payment_world "PENDING" [session_row 1 "order_0" "PENDING"].

Definition valid_request : PaymentVerifyRequest :=
  mkPaymentVerifyRequest 1 "order_0" "pay_1" "pay_1|ok".





Definition replayed_capture_request : PaymentVerifyRequest :=
  mkPaymentVerifyRequest 1 "order_1" "pay_1" "pay_1|ok".

(** ** More of the services and controllers *)





(** order_services.py, [OrderService.get_order_for_user]. *)
Definition get_order_for_user (order_id user_id : Z) : Db LoadedOrder :=
  order <- query_order_with_items order_id ;;
  match order with
  | None => raise (HTTPException 404 "Order not found")
  | Some order =>
      if negb (ord_user_id (lo_order order) =? user_id)
      then raise (HTTPException 403 "Not authorized to access this order")
      else ret order
  end.

Definition set_products (f : gmap Z Product → gmap Z Product) (s : Store) : Store :=
  mkStore (carts s) (cart_items s) (f (products s)) (inventory s) (orders s)
          (order_items s) (payments s).

(** repositories/product_repository.py, [get_product]: deleted products
    are not found. *)
Definition get_product (product_id : Z) : Db (option Product) :=
  read (fun st =>
    match products st !! product_id with
    | Some p => if String.eqb (prod_status p) "deleted" then None else Some p
    | None => None
    end).

(** repositories/product_repository.py, [soft_delete_product]. *)
Definition soft_delete_product (product_id : Z) (db_obj : Product) : Db Product :=
  let db_obj := mkProduct (prod_name db_obj) (prod_price db_obj) "deleted" in
  write (set_products <[product_id := db_obj]>) ;;;
  db_commit ;;;
  ret db_obj.

(** services/product_services.py, [ProductService.delete_product]; the
    answer is the row, of which ProductRead is a copy. *)
Definition delete_product (product_id : Z) : Db Product :=
  product <- get_product product_id ;;
  match product with
  | None => raise (HTTPException 404 "Product not found")
  | Some product => soft_delete_product product_id product
  end.

(** ** Vocabulary of the further properties *)

(** What a release of [q] reserved units makes of an inventory row
    ([rollback_stock]), what consuming them makes of it
    ([finalize_stock]), and a sale of [q] units seen from before the
    reservation. *)
Definition released_row (q : Z) (inv : Inventory) : Inventory :=
  mkInventory (total_stock inv) (available_stock inv + q) (reserved_stock inv - q).

Definition finalized_row (q : Z) (inv : Inventory) : Inventory :=
  mkInventory (total_stock inv - q) (available_stock inv) (reserved_stock inv - q).

Definition sold_row (q : Z) (inv : Inventory) : Inventory :=
  mkInventory (total_stock inv - q) (available_stock inv - q) (reserved_stock inv).

(** The quantity the lines (product, quantity) ask of one product. *)
Definition ordered_quantity (product_id : Z) (lines : list (Z * Z)) : Z :=
  foldr (fun line acc => if fst line =? product_id then snd line + acc else acc) 0 lines.

(** The ledger after each line has changed the row of its product. *)
Definition shift_rows (f : Z → Inventory → Inventory) (lines : list (Z * Z))
    (m : gmap Z Inventory) : gmap Z Inventory :=
  foldl (fun m line => alter (f (snd line)) (fst line) m) m lines.

(** Every order item belongs to an order of the store (the foreign key
    of order_items.order_id). *)
Definition order_items_reference_orders (st : Store) : Prop :=
  ∀ it, it ∈ order_items st → oi_order_id it ∈ dom (orders st).




(** The cart items table after [db.delete] of each of [items]. *)
Definition remove_items (items : list CartItem) (l : list CartItem) : list CartItem :=
  foldl (fun l item => filter (fun it => ci_id it ≠ ci_id item) l) l items.

(** The items of an order ([query(OrderItem).filter(order_id == ...)]). *)
Definition items_of_order (st : Store) (order_id : Z) : list OrderItem :=
  filter (fun it => oi_order_id it = order_id) (order_items st).

(** The columns of a payment row that identify it and its session; a
    verification writes none of them. *)
Definition payment_identity (p : Payment) : Z * Z * Z * string * Decimal * string :=
  (pay_id p, pay_order_id p, pay_user_id p, razorpay_order_id p, pay_amount p,
   pay_currency p).






(** * Properties *)

(** ** Running the ledger operations *)

Lemma run_reserve_stock (w : World) (pid q : Z) :
  run_request (reserve_stock pid q) w =
  match inventory (db w) !! pid with
  | None => (Raise (HTTPException 400 "Insufficient stock"), w)
  | Some inv =>
      if available_stock inv <? q
      then (Raise (HTTPException 400 "Insufficient stock"), w)
      else
        let inv' := mkInventory (total_stock inv) (available_stock inv - q)
                                (reserved_stock inv + q) in
        (Return inv', mkWorld (set_inventory <[pid := inv']> (db w)) (gateway w))
  end.
Proof.
  destruct w as [st gw]. unfold run_request, reserve_stock, bind, get_by_product_id, read.
  simpl. destruct (inventory st !! pid) as [inv|]; [|reflexivity].
  destruct (available_stock inv <? q); reflexivity.
Qed.





(** ** Invariants of a store carried through service code *)

Section Preserves.
Context (I : Store → Prop).

Lemma preserves_ret {A} (a : A) : preserves I (ret a).
Proof. intros s r s' [= <- <-]; auto. Qed.

Lemma preserves_raise {A} (e : Exception) : preserves I (@raise A e).
Proof. intros s r s' [= <- <-]; auto. Qed.

Lemma preserves_bind {A B} (m : Db A) (k : A → Db B) :
  preserves I m → (∀ a, preserves I (k a)) → preserves I (bind m k).
Proof.
  intros Hm Hk s r s' Hrun Hc Hp. unfold bind in Hrun.
  destruct (m s) as [[a|e] s1] eqn:Hms.
  - destruct (Hm _ _ _ Hms Hc Hp). eapply Hk; eauto.
  - injection Hrun as <- <-. eapply Hm; eauto.
Qed.

(** The continuation of a read may use that the value was read from a
    store satisfying the invariant. *)
Lemma preserves_read_bind {A B} (f : Store → A) (k : A → Db B) :
  (∀ st, I st → preserves I (k (f st))) → preserves I (bind (read f) k).
Proof.
  intros Hk s r s' Hrun Hc Hp. unfold bind, read in Hrun.
  eapply Hk; eauto.
Qed.

Lemma preserves_read {A} (f : Store → A) : preserves I (read f).
Proof. intros s r s' [= <- <-]; auto. Qed.

Lemma preserves_write (f : Store → Store) :
  (∀ st, I st → I (f st)) → preserves I (write f).
Proof. intros Hf s r s' [= <- <-]; simpl; auto. Qed.

Lemma preserves_commit : preserves I db_commit.
Proof. intros s r s' [= <- <-]; simpl; auto. Qed.

Lemma preserves_rollback : preserves I db_rollback.
Proof. intros s r s' [= <- <-]; simpl; auto. Qed.

Lemma preserves_try {A} (m h : Db A) :
  preserves I m → preserves I h → preserves I (try_integrity m h).
Proof.
  intros Hm Hh s r s' Hrun Hc Hp. unfold try_integrity in Hrun.
  destruct (m s) as [[a|e] s1] eqn:Hms.
  - injection Hrun as <- <-. eapply Hm; eauto.
  - destruct (Hm _ _ _ Hms Hc Hp).
    destruct e; try (injection Hrun as <- <-; by auto).
    eapply Hh; eauto.
Qed.

(** A request keeps the invariant on the database. *)
Lemma run_request_preserves {A} (m : Db A) (w : World) :
  preserves I m → I (db w) → I (db (snd (run_request m w))).
Proof.
  intros Hm Hw. unfold run_request.
  destruct (m (open_session w)) as [r s] eqn:Hms. simpl.
  by destruct (Hm _ _ _ Hms Hw Hw).
Qed.
End Preserves.


(** ** The ledger operations row by row *)

Section LedgerRows.
Context (P : Inventory → Prop).

Lemma every_row_insert (st : Store) (pid : Z) (inv : Inventory) :
  every_row P st → P inv → every_row P (set_inventory <[pid := inv]> st).
Proof. intros Hst Hinv. unfold every_row. simpl. by apply map_Forall_insert_2. Qed.

Lemma every_row_lookup (st : Store) (pid : Z) (inv : Inventory) :
  every_row P st → inventory st !! pid = Some inv → P inv.
Proof. intros Hst Hl. exact (map_Forall_lookup_1 _ _ _ _ Hst Hl). Qed.

Lemma preserves_store_inventory (pid : Z) (inv : Inventory) :
  P inv → preserves (every_row P) (store_inventory pid inv).
Proof. intros Hinv. apply preserves_write. intros st Hst. by apply every_row_insert. Qed.

Lemma preserves_for_update_bind {B} (pid : Z) (k : option Inventory → Db B) :
  (∀ st, every_row P st → preserves (every_row P) (k (inventory st !! pid))) →
  preserves (every_row P) (bind (query_inventory_for_update pid) k).
Proof.
  intros Hk s r s' Hrun Hc Hp. unfold bind, query_inventory_for_update in Hrun.
  pose proof (Hk _ Hp) as Hk'.
  destruct (inventory (pending s) !! pid) as [inv|]; eapply Hk'; eauto.
Qed.

Lemma preserves_add_order {B} (o : Order) (k : Z → Db B) :
  (∀ a, preserves (every_row P) (k a)) →
  preserves (every_row P) (bind (add_order o) k).
Proof.
  intros Hk s r s' Hrun Hc Hp. unfold bind, add_order in Hrun.
  eapply Hk; eauto.
Qed.

Lemma preserves_create (pid stock : Z) :
  P (mkInventory stock stock 0) →
  preserves (every_row P) (create_inventory_for_product pid stock).
Proof.
  intros H0. apply preserves_read_bind. intros st Hst.
  destruct (inventory st !! pid); [apply preserves_raise|].
  apply preserves_bind; [by apply preserves_store_inventory|]. intros _.
  apply preserves_bind; [apply preserves_commit|]. intros _. apply preserves_ret.
Qed.

Lemma preserves_reserve_stock (pid q : Z) :
  (∀ inv, P inv → q ≤ available_stock inv → P (reserved_row q inv)) →
  preserves (every_row P) (reserve_stock pid q).
Proof.
  intros HP. apply preserves_read_bind. intros st Hst.
  destruct (inventory st !! pid) as [inv|] eqn:Hl; [|apply preserves_raise].
  destruct (Z.ltb_spec (available_stock inv) q); [apply preserves_raise|].
  apply preserves_bind.
  { apply preserves_store_inventory, (HP inv); [by eapply every_row_lookup|done]. }
  intros _. apply preserves_bind; [apply preserves_commit|]. intros _.
  apply preserves_ret.
Qed.

Lemma preserves_finalize_items (items : list OrderItem) :
  (∀ inv q, P inv →
     P (mkInventory (total_stock inv - q) (available_stock inv) (reserved_stock inv - q))) →
  preserves (every_row P) (finalize_items items).
Proof.
  intros HP. induction items as [|item rest IH]; simpl; [apply preserves_ret|].
  apply preserves_read_bind. intros st Hst.
  destruct (inventory st !! oi_product_id item) as [inv|] eqn:Hl;
    [|apply preserves_raise].
  apply preserves_bind; [|by intros _].
  apply preserves_store_inventory, HP. by eapply every_row_lookup.
Qed.

Lemma preserves_finalize_stock (oid : Z) :
  (∀ inv q, P inv →
     P (mkInventory (total_stock inv - q) (available_stock inv) (reserved_stock inv - q))) →
  preserves (every_row P) (finalize_stock oid).
Proof.
  intros HP. apply preserves_bind; [apply preserves_read|]. intros items.
  apply preserves_bind; [by apply preserves_finalize_items|]. intros _.
  apply preserves_commit.
Qed.

Lemma preserves_rollback_items (items : list OrderItem) :
  (∀ inv q, P inv →
     P (mkInventory (total_stock inv) (available_stock inv + q) (reserved_stock inv - q))) →
  preserves (every_row P) (rollback_items items).
Proof.
  intros HP. induction items as [|item rest IH]; simpl; [apply preserves_ret|].
  apply preserves_read_bind. intros st Hst.
  destruct (inventory st !! oi_product_id item) as [inv|] eqn:Hl;
    [|apply preserves_raise].
  apply preserves_bind; [|by intros _].
  apply preserves_store_inventory, HP. by eapply every_row_lookup.
Qed.

Lemma preserves_rollback_stock (oid : Z) :
  (∀ inv q, P inv →
     P (mkInventory (total_stock inv) (available_stock inv + q) (reserved_stock inv - q))) →
  preserves (every_row P) (rollback_stock oid).
Proof.
  intros HP. apply preserves_bind; [apply preserves_read|]. intros items.
  destruct items as [|item rest]; [apply preserves_ret|].
  apply preserves_bind; [by apply preserves_rollback_items|]. intros _.
  apply preserves_commit.
Qed.

Lemma preserves_update_inventory (pid total : Z) :
  (∀ inv, P inv →
     P (mkInventory total (available_stock inv + (total - total_stock inv))
                    (reserved_stock inv))) →
  preserves (every_row P) (update_inventory pid total).
Proof.
  intros HP. apply preserves_read_bind. intros st Hst.
  destruct (inventory st !! pid) as [inv|] eqn:Hl; [|apply preserves_raise].
  apply preserves_bind.
  { apply preserves_store_inventory, HP. by eapply every_row_lookup. }
  intros _. apply preserves_bind; [apply preserves_commit|]. intros _.
  apply preserves_ret.
Qed.

(** Writes to other tables keep a property of the inventory rows. *)
Lemma preserves_write_elsewhere (f : Store → Store) :
  (∀ st, inventory (f st) = inventory st) →
  preserves (every_row P) (write f).
Proof.
  intros Hf. apply preserves_write. intros st Hst. unfold every_row. by rewrite Hf.
Qed.

Lemma preserves_order_lines (items : list CartItem) :
  (∀ inv q, P inv → 0 < q → q ≤ available_stock inv → P (reserved_row q inv)) →
  Forall (fun it => 0 < ci_quantity it) items →
  ∀ oid sub tot, preserves (every_row P) (order_lines oid items sub tot).
Proof.
  intros HP. induction items as [|it rest IH]; intros Hq oid sub tot; simpl;
    [apply preserves_ret|].
  inversion Hq as [|? ? Hit Hrest]; subst.
  apply preserves_bind; [apply preserves_read|]. intros [product|];
    [|apply preserves_raise].
  apply preserves_for_update_bind. intros st Hst.
  destruct (inventory st !! ci_product_id it) as [inv|] eqn:Hl;
    [|apply preserves_raise].
  destruct (Z.ltb_spec (available_stock inv) (ci_quantity it));
    [apply preserves_raise|].
  apply preserves_bind.
  { apply preserves_store_inventory. apply (HP inv); [|done..].
    by eapply every_row_lookup. }
  intros _. apply preserves_bind; [by apply preserves_write_elsewhere|].
  intros _. by apply IH.
Qed.

Lemma preserves_delete_cart_items (items : list CartItem) :
  preserves (every_row P) (delete_cart_items items).
Proof.
  induction items as [|it rest IH]; simpl; [apply preserves_ret|].
  apply preserves_bind; [by apply preserves_write_elsewhere|]. by intros _.
Qed.

Lemma preserves_create_order_from_cart uid addr pm :
  (∀ inv q, P inv → 0 < q → q ≤ available_stock inv → P (reserved_row q inv)) →
  preserves (every_row P) (create_order_from_cart uid addr pm).
Proof.
  intros HP. apply preserves_bind; [apply preserves_read|]. intros [cart|];
    [|apply preserves_raise].
  apply preserves_bind; [apply preserves_read|]. intros items. cbv zeta.
  destruct (filter (λ item : CartItem, 0 < ci_quantity item) items)
    as [|it rest] eqn:Hvalid; [apply preserves_raise|].
  assert (Hq : Forall (fun it => 0 < ci_quantity it) (it :: rest)).
  { rewrite <- Hvalid. apply Forall_forall. intros x Hx.
    by apply list_elem_of_filter in Hx as [? _]. }
  apply preserves_add_order. intros oid.
  apply preserves_bind; [by apply preserves_order_lines|]. intros [sub tot].
  apply preserves_bind; [by apply preserves_write_elsewhere|]. intros _.
  apply preserves_bind; [apply preserves_delete_cart_items|]. intros _.
  apply preserves_bind; [apply preserves_commit|]. intros _.
  apply preserves_read.
Qed.
End LedgerRows.

(** ** The ledger invariant over operation sequences *)

Lemma run_op_balanced (op : InventoryOp) (w : World) :
  ledger_balanced w → ledger_balanced (run_op op w).
Proof.
  intros Hw. unfold ledger_balanced in *.
  destruct op; simpl; apply (run_request_preserves (every_row balanced)); try done.
  - apply preserves_create. unfold balanced; simpl; lia.
  - apply preserves_reserve_stock. unfold balanced; simpl; intros; lia.
  - apply preserves_finalize_stock. unfold balanced; simpl; intros; lia.
  - apply preserves_rollback_stock. unfold balanced; simpl; intros; lia.
  - apply preserves_update_inventory. unfold balanced; simpl; intros; lia.
  - apply preserves_create_order_from_cart. unfold balanced; simpl; intros; lia.
Qed.

Lemma run_op_invariant (op : InventoryOp) (w : World) :
  guarded_op op → ledger_invariant w → ledger_invariant (run_op op w).
Proof.
  intros Hop Hw. unfold ledger_invariant in *.
  destruct op; simpl in *; try done;
    apply (run_request_preserves (every_row (fun inv => balanced inv ∧ non_negative inv)));
    try done.
  - apply preserves_create. unfold balanced, non_negative; simpl; lia.
  - apply preserves_reserve_stock. unfold balanced, non_negative; simpl; intros; lia.
  - apply preserves_create_order_from_cart.
    unfold balanced, non_negative; simpl; intros; lia.
Qed.

(** C4, as the code has it.  The equation
    [total_stock = available_stock + reserved_stock] holds on every
    inventory row after any sequence of create, reserve, finalize,
    release, admin update and checkout requests when it held before.  The
    two sign conditions are kept as well by the sequences made of
    checkouts, reservations of non-negative quantities and creations with
    non-negative stock. *)
Theorem ledger_equation_invariant (ops : list InventoryOp) (w : World)
    (Hbalanced : ledger_balanced w) :
  ledger_balanced (run_ops ops w)
  ∧ (ledger_invariant w → Forall guarded_op ops → ledger_invariant (run_ops ops w)).
Proof.
  revert w Hbalanced. induction ops as [|op ops IH]; intros w Hbal; simpl.
  - split; [done|auto].
  - destruct (IH (run_op op w) (run_op_balanced op w Hbal)) as [IH1 IH2].
    split; [exact IH1|]. intros Hinv Hops.
    inversion Hops as [|? ? Hop Hrest]; subst.
    apply IH2; [by apply run_op_invariant|done].
Qed.

Lemma ledger_equation_invariant_witness :
  ledger_balanced empty_world
  ∧ ledger_balanced
      (run_ops [OpCreate 1 5; OpReserve 1 3; OpAdminUpdate 1 1; OpRelease 9]
               empty_world).
Proof.
  assert (H0 : ledger_balanced empty_world) by apply map_Forall_empty.
  split; [exact H0|].
  exact (proj1 (ledger_equation_invariant
                  [OpCreate 1 5; OpReserve 1 3; OpAdminUpdate 1 1; OpRelease 9]
                  empty_world H0)).
Defined.

(** C4, as the specification states it, fails: lowering the total stock
    of a product below what is reserved makes its available stock
    negative. *)
Lemma ledger_invariant_broken_by_admin_update :
  ledger_invariant empty_world
  ∧ ¬ ledger_invariant
        (run_ops [OpCreate 1 5; OpReserve 1 3; OpAdminUpdate 1 1] empty_world).
Proof.
  split; [apply map_Forall_empty|].
  intros H.
  assert (Hrow : inventory (db (run_ops [OpCreate 1 5; OpReserve 1 3; OpAdminUpdate 1 1]
                                    empty_world)) !! 1
                 = Some (mkInventory 1 (-2) 3)) by (vm_compute; reflexivity).
  destruct (map_Forall_lookup_1 _ _ _ _ H Hrow) as [_ [Hneg _]].
  simpl in Hneg. lia.
Qed.

(** ** Components of the session a piece of service code leaves alone *)

Lemma bind_inv {A B} (m : Db A) (k : A → Db B) (s s' : Session) (r : result B) :
  bind m k s = (r, s') →
  (∃ a s1, m s = (Return a, s1) ∧ k a s1 = (r, s'))
  ∨ (∃ e, m s = (Raise e, s') ∧ r = Raise e).
Proof.
  unfold bind. destruct (m s) as [[a|e] s1]; intros H.
  - left. eauto.
  - right. injection H as <- <-. eauto.
Qed.

Lemma bind_read {A B} (f : Store → A) (k : A → Db B) (s : Session) :
  bind (read f) k s = k (f (pending s)) s.
Proof. reflexivity. Qed.

Lemma bind_write {B} (f : Store → Store) (k : unit → Db B) (s : Session) :
  bind (write f) k s
  = k tt (mkSession (committed s) (f (pending s)) (lock_log s) (gateway_orders s)).
Proof. reflexivity. Qed.

Lemma bind_commit {B} (k : unit → Db B) (s : Session) :
  bind db_commit k s
  = k tt (mkSession (pending s) (pending s) (lock_log s) (gateway_orders s)).
Proof. reflexivity. Qed.

Section Keeps.
Context {X : Type} (proj : Session → X).

Lemma keeps_ret {A} (a : A) : keeps proj (ret a).
Proof. by intros s r s' [= <- <-]. Qed.

Lemma keeps_raise {A} (e : Exception) : keeps proj (@raise A e).
Proof. by intros s r s' [= <- <-]. Qed.

Lemma keeps_read {A} (f : Store → A) : keeps proj (read f).
Proof. by intros s r s' [= <- <-]. Qed.

Lemma keeps_bind {A B} (m : Db A) (k : A → Db B) :
  keeps proj m → (∀ a, keeps proj (k a)) → keeps proj (bind m k).
Proof.
  intros Hm Hk s r s' Hrun.
  apply bind_inv in Hrun as [(a & s1 & H1 & H2)|(e & H1 & _)].
  - rewrite (Hk _ _ _ _ H2). eauto.
  - eauto.
Qed.

Lemma keeps_failure {A} (m : Db A) : keeps proj m → keeps_on_failure proj m.
Proof. intros Hm s e s' Hrun. eauto. Qed.

Lemma keeps_on_failure_bind {A B} (m : Db A) (k : A → Db B) :
  keeps proj m → (∀ a, keeps_on_failure proj (k a)) →
  keeps_on_failure proj (bind m k).
Proof.
  intros Hm Hk s e s' Hrun.
  apply bind_inv in Hrun as [(a & s1 & H1 & H2)|(e' & H1 & _)].
  - rewrite (Hk _ _ _ _ H2). eauto.
  - eauto.
Qed.
End Keeps.

(** What the primitives of the session leave alone. *)
Lemma keeps_write_committed f : keeps committed (write f).
Proof. by intros s r s' [= <- <-]. Qed.
Lemma keeps_write_gateway f : keeps gateway_orders (write f).
Proof. by intros s r s' [= <- <-]. Qed.
Lemma keeps_commit_gateway : keeps gateway_orders db_commit.
Proof. by intros s r s' [= <- <-]. Qed.
Lemma keeps_commit_pending : keeps pending db_commit.
Proof. by intros s r s' [= <- <-]. Qed.
Lemma keeps_add_order_committed o : keeps committed (add_order o).
Proof. by intros s r s' [= <- <-]. Qed.
Lemma keeps_add_order_gateway o : keeps gateway_orders (add_order o).
Proof. by intros s r s' [= <- <-]. Qed.

Lemma keeps_for_update {X} (proj : Session → X) pid :
  (∀ c p l g l', proj (mkSession c p l g) = proj (mkSession c p l' g)) →
  keeps proj (query_inventory_for_update pid).
Proof.
  intros Hproj s r s' Hrun. unfold query_inventory_for_update in Hrun.
  destruct (inventory (pending s) !! pid); injection Hrun as <- <-; [|done].
  destruct s; simpl. apply Hproj.
Qed.

Lemma keeps_order_lines {X} (proj : Session → X) items :
  (∀ f, keeps proj (write f)) →
  (∀ pid, keeps proj (query_inventory_for_update pid)) →
  ∀ oid sub tot, keeps proj (order_lines oid items sub tot).
Proof.
  intros Hw Hq. induction items as [|it rest IH]; intros oid sub tot; simpl.
  - apply keeps_ret.
  - apply keeps_bind; [apply keeps_read|]. intros [product|]; [|apply keeps_raise].
    apply keeps_bind; [apply Hq|]. intros [inv|]; [|apply keeps_raise].
    destruct (available_stock inv <? ci_quantity it); [apply keeps_raise|].
    apply keeps_bind; [apply Hw|]. intros _.
    apply keeps_bind; [apply Hw|]. intros _. apply IH.
Qed.

Lemma keeps_delete_cart_items {X} (proj : Session → X) items :
  (∀ f, keeps proj (write f)) → keeps proj (delete_cart_items items).
Proof.
  intros Hw. induction items as [|it rest IH]; simpl; [apply keeps_ret|].
  apply keeps_bind; [apply Hw|]. by intros _.
Qed.

(** A checkout that fails has not committed, and no checkout talks to the
    gateway. *)
Lemma create_order_from_cart_uncommitted uid addr pm :
  keeps_on_failure committed (create_order_from_cart uid addr pm).
Proof.
  unfold create_order_from_cart.
  apply keeps_on_failure_bind; [apply keeps_read|]. intros [cart|];
    [|apply keeps_failure, keeps_raise].
  apply keeps_on_failure_bind; [apply keeps_read|]. intros items. cbv zeta.
  destruct (filter _ items) as [|it rest]; [apply keeps_failure, keeps_raise|].
  apply keeps_on_failure_bind; [apply keeps_add_order_committed|]. intros oid.
  apply keeps_on_failure_bind.
  { apply keeps_order_lines; [apply keeps_write_committed|].
    intros pid. by apply keeps_for_update. }
  intros [sub tot].
  apply keeps_on_failure_bind; [apply keeps_write_committed|]. intros _.
  apply keeps_on_failure_bind.
  { apply keeps_delete_cart_items, keeps_write_committed. }
  intros _ s e s' Hrun. rewrite bind_commit in Hrun. discriminate Hrun.
Qed.

Lemma create_order_from_cart_gateway uid addr pm :
  keeps gateway_orders (create_order_from_cart uid addr pm).
Proof.
  unfold create_order_from_cart.
  apply keeps_bind; [apply keeps_read|]. intros [cart|]; [|apply keeps_raise].
  apply keeps_bind; [apply keeps_read|]. intros items. cbv zeta.
  destruct (filter _ items) as [|it rest]; [apply keeps_raise|].
  apply keeps_bind; [apply keeps_add_order_gateway|]. intros oid.
  apply keeps_bind.
  { apply keeps_order_lines; [apply keeps_write_gateway|].
    intros pid. by apply keeps_for_update. }
  intros [sub tot].
  apply keeps_bind; [apply keeps_write_gateway|]. intros _.
  apply keeps_bind; [apply keeps_delete_cart_items, keeps_write_gateway|]. intros _.
  apply keeps_bind; [apply keeps_commit_gateway|]. intros _. apply keeps_read.
Qed.

Lemma run_request_inv {A} (m : Db A) (w w' : World) (r : result A) :
  run_request m w = (r, w') ↔
  ∃ s', m (open_session w) = (r, s') ∧ w' = mkWorld (committed s') (gateway_orders s').
Proof.
  unfold run_request. destruct (m (open_session w)) as [r0 s0]. simpl. split.
  - intros [= <- <-]. eauto.
  - intros (s' & [= <- <-] & ->). done.
Qed.

(** C3.  A checkout that fails, for whatever reason, leaves the database
    exactly as it found it: no order, no order item, no deleted cart item
    and no reservation of the attempt survives. *)
Theorem checkout_all_or_nothing (w w' : World) (user_id : Z)
    (shipping_address payment_method : option string) (e : Exception)
    (Hfail : run_request (create_order_from_cart user_id shipping_address payment_method) w
             = (Raise e, w')) :
  w' = w.
Proof.
  apply run_request_inv in Hfail as (s' & Hrun & ->).
  rewrite (create_order_from_cart_uncommitted _ _ _ _ _ _ Hrun).
  rewrite (create_order_from_cart_gateway _ _ _ _ _ _ Hrun).
  by destruct w.
Qed.

(** The first line of the cart is reserved, the second asks for more than
    there is: the request fails and the first reservation is gone. *)
Lemma checkout_all_or_nothing_witness :
  run_request (create_order_from_cart 7 None None) (two_line_world 9 1)
  = (Raise (HTTPException 400 "Insufficient stock"),
     snd (run_request (create_order_from_cart 7 None None) (two_line_world 9 1)))
  ∧ snd (run_request (create_order_from_cart 7 None None) (two_line_world 9 1))
    = two_line_world 9 1.
Proof.
  assert (H : run_request (create_order_from_cart 7 None None) (two_line_world 9 1)
              = (Raise (HTTPException 400 "Insufficient stock"),
                 snd (run_request (create_order_from_cart 7 None None)
                                  (two_line_world 9 1))))
    by (vm_compute; reflexivity).
  split; [exact H|].
  exact (checkout_all_or_nothing _ _ _ _ _ _ H).
Defined.

(** ** The order of the inventory locks *)





(** ** Pricing *)

Lemma quantize_places (v : Decimal) : places (_quantize_money v) = 2%nat.
Proof. unfold _quantize_money. by destruct (places v <=? 2)%nat. Qed.



Lemma line_total_exact (u : Decimal) (q : Z) :
  places u = 2%nat →
  _quantize_money (dec_mul u (dec_of_int q)) = mkDecimal (coef u * q) 2.
Proof.
  intros Hu. unfold _quantize_money, dec_mul, dec_of_int. simpl. rewrite Hu. simpl.
  f_equal. unfold pow10. simpl. lia.
Qed.

Lemma add_two_places (a b : Decimal) :
  places a = 2%nat → places b = 2%nat → dec_add a b = mkDecimal (coef a + coef b) 2.
Proof.
  intros Ha Hb. unfold dec_add. rewrite Ha, Hb. simpl. f_equal. unfold pow10. simpl. lia.
Qed.



(** 12.345 rounds to 12.35 and -12.345 to -12.35 (ties go away from
    zero), 12.344 to 12.34; 18% of 0.25 is 0.045 and becomes 0.05. *)
Example quantize_tie_up :
  _quantize_money (mkDecimal 12345 3) = mkDecimal 1235 2.
Proof. reflexivity. Qed.

Example quantize_tie_negative :
  _quantize_money (mkDecimal (-12345) 3) = mkDecimal (-1235) 2.
Proof. reflexivity. Qed.

Example quantize_below_tie :
  _quantize_money (mkDecimal 12344 3) = mkDecimal 1234 2.
Proof. reflexivity. Qed.

Example tax_of_a_quarter :
  _quantize_money (dec_mul (mkDecimal 25 2) TAX_RATE) = mkDecimal 5 2.
Proof. reflexivity. Qed.

Lemma order_lines_totals (items : list CartItem) :
  ∀ oid sub tot s acc s',
    order_lines oid items sub tot s = (Return acc, s') →
    places sub = 2%nat →
    products (pending s') = products (pending s)
    ∧ orders (pending s') = orders (pending s)
    ∧ ∃ lines,
        order_items (pending s') = order_items (pending s) ++ lines
        ∧ Forall (line_priced (products (pending s)) oid) lines
        ∧ map line_of_order_item lines = map line_of_cart_item items
        ∧ acc = (mkDecimal (coef sub + sum_line_totals lines) 2,
                 tot + sum_quantities lines).
Proof.
  induction items as [|it rest IH]; intros oid sub tot s acc s' Hrun Hsub;
    simpl in Hrun.
  - injection Hrun as <- <-. split; [done|]. split; [done|]. exists [].
    rewrite app_nil_r. repeat split; [constructor|]. simpl.
    destruct sub as [c p]; simpl in *; subst p. f_equal; [f_equal|]; lia.
  - unfold query_active_product in Hrun. rewrite bind_read in Hrun. cbv beta in Hrun.
    destruct (products (pending s) !! ci_product_id it) as [p|] eqn:Hp;
      [|discriminate Hrun].
    destruct (String.eqb (prod_status p) "active") eqn:Hactive; [|discriminate Hrun].
    unfold bind at 1, query_inventory_for_update in Hrun.
    destruct (inventory (pending s) !! ci_product_id it) as [inv|];
      [|discriminate Hrun].
    destruct (available_stock inv <? ci_quantity it); [discriminate Hrun|].
    unfold store_inventory, add_order_item in Hrun. rewrite !bind_write in Hrun.
    cbv zeta in Hrun.
    apply IH in Hrun as (Hprod & Hord & lines & Hitems & Hlines & Hmap & Hacc).
    2:{ rewrite add_two_places; [done..|apply quantize_places]. }
    rewrite add_two_places in Hacc; [|done|apply quantize_places].
    rewrite line_total_exact in Hacc by apply quantize_places.
    simpl in Hprod, Hord, Hitems, Hlines.
    split; [done|]. split; [done|].
    set (line := mkOrderItem oid (ci_product_id it) (prod_name p)
                   (_quantize_money (prod_price p)) (ci_quantity it)
                   (_quantize_money (dec_mul (_quantize_money (prod_price p))
                                             (dec_of_int (ci_quantity it))))) in *.
    exists (line :: lines). rewrite Hitems, <- app_assoc. simpl.
    split; [done|]. split.
    { constructor; [|done]. unfold line_priced, line; simpl.
      split; [done|]. split.
      - exists p. apply String.eqb_eq in Hactive. done.
      - rewrite line_total_exact by apply quantize_places. done. }
    split; [by rewrite Hmap|].
    rewrite Hacc. unfold line. simpl.
    rewrite line_total_exact by apply quantize_places. simpl.
    f_equal; [f_equal|]; lia.
Qed.

Lemma delete_cart_items_pending (items : list CartItem) :
  ∀ s r s', delete_cart_items items s = (r, s') →
    r = Return tt ∧ committed s' = committed s ∧ lock_log s' = lock_log s
    ∧ gateway_orders s' = gateway_orders s
    ∧ pending s' = set_cart_items (fun _ => cart_items (pending s')) (pending s).
Proof.
  induction items as [|it rest IH]; intros s r s' Hrun; simpl in Hrun.
  - injection Hrun as <- <-. repeat split. by destruct (pending s).
  - unfold delete_cart_item in Hrun. rewrite bind_write in Hrun.
    apply IH in Hrun as (-> & Hc & Hl & Hg & Hp). simpl in *.
    repeat split; done.
Qed.

Lemma create_order_from_cart_priced (s s' : Session) (uid : Z)
    (addr pm : option string) (r : option LoadedOrder) :
  create_order_from_cart uid addr pm s = (Return r, s') →
  ∃ oid sub tot lines,
    let tax := _quantize_money (dec_mul sub TAX_RATE) in
    let o := mkOrder uid tot (_quantize_money sub) tax (_quantize_money ZERO_MONEY)
               (_quantize_money (dec_sub (dec_add sub tax) ZERO_MONEY))
               "PENDING" addr pm in
    r = Some (mkLoadedOrder oid o
                (filter (fun it => oi_order_id it = oid) (order_items (committed s'))))
    ∧ orders (committed s') = <[oid := o]> (orders (pending s))
    ∧ (oid ∉ dom (orders (pending s)))
    ∧ order_items (committed s') = order_items (pending s) ++ lines
    ∧ Forall (line_priced (products (pending s)) oid) lines
    ∧ map line_of_order_item lines = map line_of_cart_item (valid_items_of (pending s) uid)
    ∧ valid_items_of (pending s) uid ≠ []
    ∧ sub = mkDecimal (sum_line_totals lines) 2
    ∧ tot = sum_quantities lines.
Proof.
  intros Hrun.
  unfold create_order_from_cart, query_cart, cart_items_of in Hrun.
  unfold valid_items_of.
  rewrite bind_read in Hrun. cbv beta in Hrun.
  destruct (List.find _ (carts (pending s))) as [cart|]; [|discriminate Hrun].
  rewrite bind_read in Hrun. cbv beta zeta in Hrun.
  destruct (filter (λ item, 0 < ci_quantity item) _) as [|it rest] eqn:Hvalid;
    [discriminate Hrun|].
  apply bind_inv in Hrun as [(oid & s1 & Hadd & Hrun)|(e & _ & [=])].
  unfold add_order in Hadd. injection Hadd as <- <-.
  set (oid := fresh (dom (orders (pending s)))) in *.
  apply bind_inv in Hrun as [([sub tot] & s2 & Hlines & Hrun)|(e & _ & [=])].
  apply order_lines_totals in Hlines
    as (Hprod & Hord & lines & Hitems & Hlines & Hmap & [= -> ->]); [|done].
  simpl in Hprod, Hord, Hitems, Hlines.
  rewrite bind_write in Hrun.
  apply bind_inv in Hrun as [([] & s3 & Hdel & Hrun)|(e & _ & [=])].
  apply delete_cart_items_pending in Hdel as (_ & _ & _ & _ & Hpend). simpl in Hpend.
  rewrite bind_commit in Hrun. unfold query_order_with_items, read in Hrun.
  simpl in Hrun. injection Hrun as <- <-. simpl.
  rewrite Hpend. simpl. rewrite lookup_insert_eq, Hord, Hitems. simpl.
  exists oid, (mkDecimal (0 + sum_line_totals lines) 2), (0 + sum_quantities lines), lines.
  cbv zeta. split; [done|]. split; [by rewrite insert_insert_eq|].
  split; [apply is_fresh|]. split; [done|]. split; [done|]. split; [done|].
  split; [done|]. split; [|lia]. f_equal.
Qed.



(** ** Running the payment operations *)

Section PaymentRuns.
Context `{client : RazorpayClient}.

Lemma run_verify_and_capture_payment (w : World) (uid : Z)
    (data : PaymentVerifyRequest) :
  run_request (verify_and_capture_payment uid data) w =
  match find_session (db w) uid data with
  | None => (Raise (HTTPException 404 "Payment session not found"), w)
  | Some p =>
      if String.eqb (pay_status p) "SUCCESS"
      then (Return (payment_read p), w)
      else if negb (signature_ok data)
      then (Raise (HTTPException 400 "Signature verification failed"),
            mkWorld (set_payments (replace_payment (with_status "FAILED" p)) (db w))
                    (gateway w))
      else if existsb (capture_conflicts (captured_by data p)) (payments (db w))
      then (match List.find (holds_capture (pvr_order_id data)
                               (pvr_razorpay_payment_id data))
                            (payments (db w)) with
            | None => Raise AttributeError
            | Some existing => Return (payment_read existing)
            end, w)
      else (Return (payment_read (captured_by data p)),
            mkWorld (mark_paid (pay_order_id p)
                       (set_payments (replace_payment (captured_by data p)) (db w)))
                    (gateway w))
  end.
Proof.
  destruct w as [st gw].
  unfold run_request, verify_and_capture_payment, find_session, signature_ok,
    captured_by, query_payment_session.
  rewrite bind_read. simpl.
  destruct (List.find _ (payments st)) as [p|]; [|reflexivity].
  destruct (String.eqb (pay_status p) "SUCCESS"); [reflexivity|].
  destruct (verify_payment_signature _ _ _); simpl; [|reflexivity].
  unfold try_integrity, bind at 1, store_captured_payment. simpl.
  destruct (existsb _ (payments st)).
  - simpl. unfold query_payment_by_capture, bind, db_rollback, read. simpl.
    destruct (List.find _ (payments st)); reflexivity.
  - simpl. unfold bind, query_order, read, mark_paid. simpl.
    destruct (orders st !! pay_order_id p) as [o|]; [|reflexivity].
    destruct (String.eqb (ord_status o) "PAID"); reflexivity.
Qed.

Lemma run_create_payment_session (w : World) (uid oid : Z) :
  run_request (create_payment_session uid oid) w =
  match orders (db w) !! oid with
  | None => (Raise (HTTPException 404 "Order not found for this user"), w)
  | Some order =>
      if negb (ord_user_id order =? uid)
      then (Raise (HTTPException 404 "Order not found for this user"), w)
      else if String.eqb (ord_status order) "PAID"
      then (Raise (HTTPException 400 "Order already paid"), w)
      else
        match List.find (pending_of oid uid) (payments (db w)) with
        | Some existing =>
            (Return (session_descriptor oid order (razorpay_order_id existing)), w)
        | None =>
            if negb (dec_truthy (ord_grand_total order))
            then (Raise (HTTPException 400 "Order has no payable amount"), w)
            else
              let amount := amount_paise (ord_grand_total order) in
              let receipt := "order_" +:+ pretty oid in
              match razorpay_new_order_id (gateway w) amount receipt with
              | None => (Raise GatewayError, w)
              | Some rp_order_id =>
                  (Return (session_descriptor oid order rp_order_id),
                   mkWorld
                     (set_payments
                        (fun l => l ++ [mkPayment (next_payment_id l) oid uid rp_order_id
                                          None None (ord_grand_total order) "INR"
                                          "PENDING"])
                        (db w))
                     (gateway w ++ [mkGatewayOrder rp_order_id amount "INR" receipt]))
              end
        end
  end.
Proof.
  destruct w as [st gw].
  unfold run_request, create_payment_session, query_order_for_user,
    query_pending_payment, session_descriptor.
  rewrite bind_read. simpl.
  destruct (orders st !! oid) as [order|]; [|reflexivity].
  destruct (ord_user_id order =? uid); simpl; [|reflexivity].
  destruct (String.eqb (ord_status order) "PAID"); [reflexivity|].
  rewrite bind_read. simpl.
  destruct (List.find _ (payments st)); [reflexivity|].
  destruct (dec_truthy (ord_grand_total order)); simpl; [|reflexivity].
  unfold bind at 1, razorpay_order_create. simpl.
  destruct (razorpay_new_order_id gw _ _); reflexivity.
Qed.
End PaymentRuns.

Lemma run_update_status (w : World) (oid : Z) (new_status : string) :
  run_request (update_status oid new_status) w =
  if negb (existsb (String.eqb new_status) ALLOWED_STATUSES)
  then (Raise (HTTPException 400 ("Invalid order status '" +:+ new_status +:+ "'")), w)
  else
    match orders (db w) !! oid with
    | None => (Raise (HTTPException 404 "Order not found"), w)
    | Some order =>
        (Return (set_status new_status order),
         mkWorld (set_orders <[oid := set_status new_status order]> (db w)) (gateway w))
    end.
Proof.
  destruct w as [st gw]. unfold run_request, update_status.
  destruct (existsb _ ALLOWED_STATUSES); simpl; [|reflexivity].
  rewrite bind_read. simpl.
  destruct (orders st !! oid); reflexivity.
Qed.

(** ** The payments table under updates *)

Lemma with_status_twice (st : string) (p : Payment) :
  with_status st (with_status st p) = with_status st p.
Proof. reflexivity. Qed.

Lemma replace_payment_twice (p : Payment) (l : list Payment) :
  replace_payment p (replace_payment p l) = replace_payment p l.
Proof.
  unfold replace_payment. rewrite map_map. apply map_ext. intros q.
  destruct (pay_id q =? pay_id p) eqn:Hq; [by rewrite Z.eqb_refl|by rewrite Hq].
Qed.

Lemma replace_payment_ids (p : Payment) (l : list Payment) :
  map pay_id (replace_payment p l) = map pay_id l.
Proof.
  unfold replace_payment. rewrite map_map. apply map_ext. intros q.
  destruct (Z.eqb_spec (pay_id q) (pay_id p)); congruence.
Qed.

Lemma elem_of_replace_payment (p q : Payment) (l : list Payment) :
  q ∈ replace_payment p l →
  (q = p ∧ ∃ q0, q0 ∈ l ∧ pay_id q0 = pay_id p) ∨ (q ∈ l ∧ pay_id q ≠ pay_id p).
Proof.
  unfold replace_payment. rewrite list_elem_of_In, in_map_iff.
  intros (q0 & Hq & Hin). apply list_elem_of_In in Hin.
  destruct (Z.eqb_spec (pay_id q0) (pay_id p)); subst; eauto.
Qed.

Lemma replace_payment_elem (p p' : Payment) (l : list Payment) :
  p ∈ l → pay_id p' = pay_id p → p' ∈ replace_payment p' l.
Proof.
  intros Hin Hid. unfold replace_payment. rewrite list_elem_of_In, in_map_iff.
  exists p. rewrite <- Hid, Z.eqb_refl. split; [done|]. by apply list_elem_of_In.
Qed.

(** A query whose filter the updated row still passes finds the updated
    row where it found the old one. *)
Lemma find_replace_payment (f : Payment → bool) (p p' : Payment) (l : list Payment) :
  List.find f l = Some p → pay_id p' = pay_id p → f p' = true →
  List.find f (replace_payment p' l) = Some p'.
Proof.
  intros Hfind Hid Hf. induction l as [|q l IH]; simpl in *; [done|].
  destruct (Z.eqb_spec (pay_id q) (pay_id p')) as [Heq|Hne].
  - by rewrite Hf.
  - destruct (f q); [|auto]. injection Hfind as ->. congruence.
Qed.

Lemma find_elem_of {A} (f : A → bool) (l : list A) (x : A) :
  List.find f l = Some x → x ∈ l ∧ f x = true.
Proof. intros H. apply find_some in H as [Hin Hf]. by rewrite list_elem_of_In. Qed.


Lemma session_of_inv (oid uid : Z) (rid : string) (p : Payment) :
  session_of oid uid rid p = true →
  pay_order_id p = oid ∧ pay_user_id p = uid ∧ razorpay_order_id p = rid.
Proof.
  unfold session_of. rewrite !andb_true_iff, !Z.eqb_eq, String.eqb_eq. tauto.
Qed.

Lemma existsb_capture_conflicts (p' : Payment) (l : list Payment) :
  existsb (capture_conflicts p') l = true ↔ uniqueness_violated_by p' l.
Proof.
  rewrite existsb_exists. unfold uniqueness_violated_by, capture_conflicts. split.
  - intros (q & Hin & Hq). apply list_elem_of_In in Hin.
    rewrite !andb_true_iff, negb_true_iff, Z.eqb_neq, Z.eqb_eq in Hq.
    destruct Hq as [[Hid Hord] Hpid].
    destruct (razorpay_payment_id q) as [x|] eqn:Hx; [|done].
    destruct (razorpay_payment_id p') as [y|] eqn:Hy; [|done].
    apply String.eqb_eq in Hpid as ->. exists q, y. eauto 10.
  - intros (q & x & Hin & Hid & Hord & Hx & Hy). exists q.
    split; [by apply list_elem_of_In|].
    rewrite Hx, Hy, String.eqb_refl, !andb_true_iff, negb_true_iff, Z.eqb_neq, Z.eqb_eq.
    done.
Qed.

Lemma payments_wf_same_row (l : list Payment) (p q : Payment) :
  NoDup (map pay_id l) → p ∈ l → q ∈ l → pay_id p = pay_id q → p = q.
Proof.
  induction l as [|a l IH]; simpl; intros Hnd Hp Hq Hid.
  - by apply elem_of_nil in Hp.
  - apply NoDup_cons in Hnd as [Ha Hnd].
    apply elem_of_cons in Hp as [->|Hp]; apply elem_of_cons in Hq as [->|Hq];
      try done.
    + exfalso. apply Ha. rewrite Hid. by apply (list_elem_of_fmap_2 pay_id).
    + exfalso. apply Ha. rewrite <- Hid. by apply (list_elem_of_fmap_2 pay_id).
    + by apply IH.
Qed.

(** An update that keeps a row's order and gateway payment id, or gives
    it a payment id no other row of the order holds, keeps the table
    well-formed. *)
Lemma payments_wf_replace (l : list Payment) (p p' : Payment) :
  payments_wf l → p ∈ l → pay_id p' = pay_id p → pay_order_id p' = pay_order_id p →
  (razorpay_payment_id p' = razorpay_payment_id p ∨ ¬ uniqueness_violated_by p' l) →
  payments_wf (replace_payment p' l).
Proof.
  intros [Hnd Huq] Hp Hid Hord Hkey. split; [by rewrite replace_payment_ids|].
  intros a b x Ha Hb Hab Hax Hbx.
  apply elem_of_replace_payment in Ha as [[-> _]|[Ha Hane]];
    apply elem_of_replace_payment in Hb as [[-> _]|[Hb Hbne]]; try done.
  - exfalso. destruct Hkey as [Hsame|Hfree].
    + apply Hbne. rewrite Hid. symmetry. apply (Huq p b x); try done; congruence.
    + apply Hfree. exists b, x. split; [done|]. split; [done|]. by split.
  - exfalso. destruct Hkey as [Hsame|Hfree].
    + apply Hane. rewrite Hid. apply (Huq a p x); try done; congruence.
    + apply Hfree. exists a, x. split; [done|]. split; [done|]. by split.
  - by apply (Huq a b x).
Qed.

(** In a list without repetition, a filter that only one element passes
    selects one row. *)
Lemma filter_only_one {A} (f : A → bool) (l : list A) (x : A) :
  NoDup l → x ∈ l → f x = true → (∀ y, y ∈ l → f y = true → y = x) →
  length (List.filter f l) = 1%nat.
Proof.
  induction l as [|a l IH]; simpl; intros Hnd Hx Hfx Huniq.
  - by apply elem_of_nil in Hx.
  - apply NoDup_cons in Hnd as [Ha Hnd].
    assert (Hrest : ∀ y, y ∈ l → f y = true → y = x).
    { intros y Hy. apply Huniq. by right. }
    apply elem_of_cons in Hx as [<-|Hx].
    + rewrite Hfx. simpl. f_equal.
      assert (Hnone : List.filter f l = []).
      { destruct (List.filter f l) as [|y t] eqn:Hfl; [done|]. exfalso.
        assert (Hy : List.In y (List.filter f l)) by (rewrite Hfl; by left).
        apply filter_In in Hy as [Hy Hfy]. apply list_elem_of_In in Hy.
        apply Ha. by rewrite <- (Hrest y Hy Hfy). }
      by rewrite Hnone.
    + destruct (f a) eqn:Hfa.
      * exfalso. apply Ha. rewrite (Huniq a); [done|by left|done].
      * by apply IH.
Qed.

Lemma payments_mark_paid (oid : Z) (st : Store) :
  payments (mark_paid oid st) = payments st.
Proof.
  unfold mark_paid. destruct (orders st !! oid) as [o|]; [|done].
  by destruct (negb _).
Qed.

Lemma inventory_mark_paid (oid : Z) (st : Store) :
  inventory (mark_paid oid st) = inventory st.
Proof.
  unfold mark_paid. destruct (orders st !! oid) as [o|]; [|done].
  by destruct (negb _).
Qed.

(** ** Verification is idempotent *)

Section Verification.
Context `{client : RazorpayClient}.

(** A second verification with the same payload answers as the first
    did and writes nothing. *)
Lemma verify_twice (w w1 : World) (uid : Z) (data : PaymentVerifyRequest)
    (r1 : result PaymentRead) :
  run_request (verify_and_capture_payment uid data) w = (r1, w1) →
  run_request (verify_and_capture_payment uid data) w1 = (r1, w1).
Proof.
  intros H. rewrite run_verify_and_capture_payment in H.
  destruct (find_session (db w) uid data) as [p|] eqn:Hf.
  2:{ injection H as <- <-. by rewrite run_verify_and_capture_payment, Hf. }
  destruct (String.eqb (pay_status p) "SUCCESS") eqn:Hs.
  { injection H as <- <-. by rewrite run_verify_and_capture_payment, Hf, Hs. }
  pose proof (find_elem_of _ _ _ Hf) as [Hin Hsess].
  destruct (signature_ok data) eqn:Hsig; simpl in H.
  - destruct (existsb _ (payments (db w))) eqn:Hc.
    + injection H as <- <-.
      rewrite run_verify_and_capture_payment, Hf, Hs, Hsig. simpl. by rewrite Hc.
    + injection H as <- <-. rewrite run_verify_and_capture_payment.
      unfold find_session. simpl. rewrite payments_mark_paid. simpl.
      rewrite (find_replace_payment _ p (captured_by data p)); [done|done..].
  - injection H as <- <-. rewrite run_verify_and_capture_payment.
    unfold find_session. simpl.
    rewrite (find_replace_payment _ p (with_status "FAILED" p)); [|done..].
    simpl. rewrite Hsig. simpl.
    rewrite with_status_twice. unfold set_payments. simpl.
    by rewrite replace_payment_twice.
Qed.

Lemma verify_keeps_wf (w w1 : World) (uid : Z) (data : PaymentVerifyRequest)
    (r1 : result PaymentRead) :
  run_request (verify_and_capture_payment uid data) w = (r1, w1) →
  payments_wf (payments (db w)) → payments_wf (payments (db w1)).
Proof.
  intros H Hwf. rewrite run_verify_and_capture_payment in H.
  destruct (find_session (db w) uid data) as [p|] eqn:Hf.
  2:{ by injection H as <- <-. }
  destruct (String.eqb (pay_status p) "SUCCESS") eqn:Hs.
  { by injection H as <- <-. }
  pose proof (find_elem_of _ _ _ Hf) as [Hin Hsess].
  destruct (signature_ok data) eqn:Hsig; simpl in H.
  - destruct (existsb _ (payments (db w))) eqn:Hc.
    + by injection H as <- <-.
    + injection H as <- <-. simpl. rewrite payments_mark_paid. simpl.
      apply (payments_wf_replace _ p); try done. right.
      rewrite <- existsb_capture_conflicts. by rewrite Hc.
  - injection H as <- <-. simpl.
    apply (payments_wf_replace _ p); try done. by left.
Qed.

(** After a verification that answers SUCCESS for a row that was not
    SUCCESS before, one row of the order holds the gateway payment id
    with status SUCCESS. *)
Lemma verify_one_success (w w1 : World) (uid : Z) (data : PaymentVerifyRequest)
    (p : Payment) (pr : PaymentRead) :
  run_request (verify_and_capture_payment uid data) w = (Return pr, w1) →
  payments_wf (payments (db w)) →
  find_session (db w) uid data = Some p →
  pay_status p ≠ "SUCCESS" →
  pr_status pr = "SUCCESS" →
  length (success_rows (pvr_order_id data) (pvr_razorpay_payment_id data)
                       (payments (db w1))) = 1%nat.
Proof.
  intros H Hwf Hf Hp Hpr.
  pose proof (verify_keeps_wf _ _ _ _ _ H Hwf) as [Hnd1 Huq1].
  rewrite run_verify_and_capture_payment, Hf in H.
  destruct (String.eqb_spec (pay_status p) "SUCCESS") as [|_]; [done|].
  pose proof (find_elem_of _ _ _ Hf) as [Hin Hsess].
  apply session_of_inv in Hsess as (Hoid & _ & _).
  assert (Hone : ∀ x : Payment,
    x ∈ payments (db w1) →
    holds_capture (pvr_order_id data) (pvr_razorpay_payment_id data) x = true →
    pay_status x = "SUCCESS" →
    length (success_rows (pvr_order_id data) (pvr_razorpay_payment_id data)
              (payments (db w1))) = 1%nat).
  { intros x Hx Hkey Hst. unfold success_rows.
    apply (filter_only_one _ _ x).
    - by apply (NoDup_fmap_1 pay_id).
    - done.
    - rewrite Hkey. simpl. by apply String.eqb_eq.
    - intros y Hy Hfy. apply andb_true_iff in Hfy as [Hykey _].
      apply (payments_wf_same_row (payments (db w1))); try done.
      unfold holds_capture in Hkey, Hykey.
      apply andb_true_iff in Hkey as [Hxo Hxp].
      apply andb_true_iff in Hykey as [Hyo Hyp].
      apply Z.eqb_eq in Hxo, Hyo.
      destruct (razorpay_payment_id x) as [a|] eqn:Hxa; [|done].
      destruct (razorpay_payment_id y) as [b|] eqn:Hyb; [|done].
      apply String.eqb_eq in Hxp, Hyp. subst a b.
      apply (Huq1 y x (pvr_razorpay_payment_id data)); try done. congruence. }
  destruct (signature_ok data); simpl in H; [|discriminate H].
  destruct (existsb _ (payments (db w))) eqn:Hc.
  - destruct (List.find _ (payments (db w))) as [existing|] eqn:Hex;
      [|discriminate H].
    injection H as <- <-. apply find_elem_of in Hex as [Hein Hekey].
    by apply (Hone existing).
  - injection H as <- <-. apply (Hone (captured_by data p)).
    + simpl. rewrite payments_mark_paid. simpl.
      by apply (replace_payment_elem p).
    + unfold holds_capture, captured_by. simpl.
      by rewrite Hoid, Z.eqb_refl, String.eqb_refl.
    + done.
Qed.

(** C1.  A verification that finds its payment row already SUCCESS
    returns that row's record and writes nothing.  Whatever the first
    verification did, a second one with the same payload returns the
    same answer and leaves the database - payments and order status
    alike - as the first one left it.  The uniqueness of
    (order_id, razorpay_payment_id) is kept, and once a verification of
    a row that was not yet SUCCESS has answered SUCCESS, exactly one
    row of the order holds that gateway payment id with status SUCCESS,
    after the first call and after the second. *)
Theorem verify_idempotent (w w1 : World) (user_id : Z) (data : PaymentVerifyRequest)
    (r1 : result PaymentRead)
    (Hfirst : run_request (verify_and_capture_payment user_id data) w = (r1, w1)) :
  (∀ p, find_session (db w) user_id data = Some p → pay_status p = "SUCCESS" →
        r1 = Return (payment_read p) ∧ w1 = w)
  ∧ run_request (verify_and_capture_payment user_id data) w1 = (r1, w1)
  ∧ (payments_wf (payments (db w)) →
     payments_wf (payments (db w1))
     ∧ ∀ p pr, find_session (db w) user_id data = Some p →
               pay_status p ≠ "SUCCESS" →
               r1 = Return pr → pr_status pr = "SUCCESS" →
               length (success_rows (pvr_order_id data) (pvr_razorpay_payment_id data)
                         (payments (db w1))) = 1%nat).
Proof.
  split; [|split].
  - intros p Hf Hs. rewrite run_verify_and_capture_payment, Hf in Hfirst.
    apply String.eqb_eq in Hs. rewrite Hs in Hfirst. by injection Hfirst as <- <-.
  - exact (verify_twice _ _ _ _ _ Hfirst).
  - intros Hwf. split; [exact (verify_keeps_wf _ _ _ _ _ Hfirst Hwf)|].
    intros p pr Hf Hp -> Hpr.
    exact (verify_one_success _ _ _ _ _ _ Hfirst Hwf Hf Hp Hpr).
Qed.
End Verification.

Lemma one_session_world_wf : payments_wf (payments (db one_session_world)).
Proof.
  split.
  - simpl. apply NoDup_singleton.
  - intros p q x Hp Hq _ _ _. simpl in Hp, Hq.
    apply list_elem_of_singleton in Hp, Hq. by subst.
Qed.

(** A first verification captures the payment and marks the order PAID;
    the second returns the same record and changes nothing. *)
Lemma verify_idempotent_witness :
  ∃ pr w1,
    run_request (@verify_and_capture_payment sample_client 7 valid_request)
                one_session_world = (Return pr, w1)
    ∧ pr_status pr = "SUCCESS"
    ∧ ord_status <$> orders (db w1) !! 1 = Some "PAID"
    ∧ run_request (@verify_and_capture_payment sample_client 7 valid_request) w1
      = (Return pr, w1)
    ∧ length (success_rows 1 "pay_1" (payments (db w1))) = 1%nat.
Proof.
  assert (H : ∃ pr w1,
    run_request (@verify_and_capture_payment sample_client 7 valid_request)
                one_session_world = (Return pr, w1)
    ∧ pr_status pr = "SUCCESS"
    ∧ ord_status <$> orders (db w1) !! 1 = Some "PAID")
    by (vm_compute; eexists _, _; repeat split; reflexivity).
  destruct H as (pr & w1 & H & Hs & Ho). exists pr, w1.
  destruct (@verify_idempotent sample_client _ _ _ _ _ H) as (_ & Htwice & Hwf).
  destruct (Hwf one_session_world_wf) as [_ Hone].
  split; [exact H|]. split; [exact Hs|]. split; [exact Ho|]. split; [exact Htwice|].
  apply (Hone (session_row 1 "order_0" "PENDING") pr); [reflexivity|discriminate|
    reflexivity|exact Hs].
Defined.

(** ** The uniqueness race *)

Section Race.
Context `{client : RazorpayClient}.

End Race.



(** ** A failed signature check *)

Section SignatureFailure.
Context `{client : RazorpayClient}.

End SignatureFailure.



(** ** Payment sessions are reused *)


Section Sessions.
Context `{client : RazorpayClient}.

End Sessions.



(** ** Payments and status updates leave the ledger alone *)

Section Frame.
Context `{client : RazorpayClient}.

(** C10.  No request to [create_payment_session],
    [verify_and_capture_payment] or [update_status] changes an
    inventory row, whatever its outcome; [update_status] changes
    nothing but the status of the order it is given. *)
Theorem payments_leave_inventory (w : World) (user_id order_id : Z)
    (data : PaymentVerifyRequest) (new_status : string) :
  inventory (db (snd (run_request (create_payment_session user_id order_id) w)))
  = inventory (db w)
  ∧ inventory (db (snd (run_request (verify_and_capture_payment user_id data) w)))
    = inventory (db w)
  ∧ inventory (db (snd (run_request (update_status order_id new_status) w)))
    = inventory (db w)
  ∧ (snd (run_request (update_status order_id new_status) w) = w
     ∨ ∃ o, orders (db w) !! order_id = Some o
            ∧ snd (run_request (update_status order_id new_status) w)
              = mkWorld (set_orders <[order_id := set_status new_status o]> (db w))
                        (gateway w)).
Proof.
  split; [|split; [|split]].
  - rewrite run_create_payment_session.
    destruct (orders (db w) !! order_id) as [o|]; [|done].
    destruct (negb _); [done|]. destruct (String.eqb _ _); [done|].
    destruct (List.find _ _); [done|]. destruct (negb _); [done|]. cbv zeta.
    by destruct (razorpay_new_order_id _ _ _).
  - rewrite run_verify_and_capture_payment.
    destruct (find_session (db w) user_id data) as [p|]; [|done].
    destruct (String.eqb _ _); [done|]. destruct (negb _); [done|].
    destruct (existsb _ _); [done|]. simpl. by rewrite inventory_mark_paid.
  - rewrite run_update_status. destruct (negb _); [done|].
    by destruct (orders (db w) !! order_id).
  - rewrite run_update_status. destruct (negb _); [by left|].
    destruct (orders (db w) !! order_id) as [o|]; [right|by left]. eauto.
Qed.
End Frame.

(** * Further properties of the code *)

(** ** Rounding *)








(** ** The inventory endpoints *)




Lemma run_validate_stock (w : World) (pid q : Z) :
  run_request (validate_stock pid q) w =
  match inventory (db w) !! pid with
  | None => (Raise (HTTPException 400 "Insufficient stock"), w)
  | Some inv =>
      if available_stock inv <? q
      then (Raise (HTTPException 400 "Insufficient stock"), w)
      else (Return true, w)
  end.
Proof.
  destruct w as [st gw]. unfold run_request, validate_stock, bind, get_by_product_id, read.
  simpl. destruct (inventory st !! pid) as [inv|]; [|reflexivity].
  destruct (available_stock inv <? q); reflexivity.
Qed.



(** X4.  [validate_stock] writes nothing, and it accepts a quantity
    exactly when [reserve_stock], asked next, grants it. *)
Theorem validate_stock_agrees_with_reserve (w : World) (product_id quantity : Z) :
  snd (run_request (validate_stock product_id quantity) w) = w
  ∧ (fst (run_request (validate_stock product_id quantity) w) = Return true
     ↔ ∃ inv w', run_request (reserve_stock product_id quantity) w = (Return inv, w'))
  ∧ (fst (run_request (validate_stock product_id quantity) w)
     = Raise (HTTPException 400 "Insufficient stock")
     ↔ run_request (reserve_stock product_id quantity) w
       = (Raise (HTTPException 400 "Insufficient stock"), w)).
Proof.
  rewrite run_validate_stock, run_reserve_stock.
  destruct (inventory (db w) !! product_id) as [inv|]; simpl.
  - destruct (available_stock inv <? quantity); simpl.
    + split; [done|]. split; [|done]. split; [done|]. by intros (? & ? & ?).
    + split; [done|]. split; [|split; done]. split; eauto.
  - split; [done|]. split; [|done]. split; [done|]. by intros (? & ? & ?).
Qed.


(** ** Rows shifted line by line *)

Lemma alter_present (f : Inventory → Inventory) (k : Z) (inv : Inventory)
    (m : gmap Z Inventory) :
  m !! k = Some inv → <[k := f inv]> m = alter f k m.
Proof.
  intros Hk. apply map_eq. intros j. rewrite lookup_alter, lookup_insert.
  case_decide; [subst; by rewrite Hk|done].
Qed.

Section Shifts.
Context (f : Z → Inventory → Inventory).
Context (Hadd : ∀ a b inv, f a (f b inv) = f (a + b) inv).
Context (Hzero : ∀ inv, f 0 inv = inv).

(** The row of a product after all lines: shifted once by the quantity
    the lines ask of that product. *)
Lemma shift_rows_lookup (lines : list (Z * Z)) :
  ∀ m k, shift_rows f lines m !! k = f (ordered_quantity k lines) <$> m !! k.
Proof.
  induction lines as [|[p q] lines IH]; intros m k.
  - simpl. destruct (m !! k); simpl; [by rewrite Hzero|done].
  - change (shift_rows f ((p, q) :: lines) m)
      with (shift_rows f lines (alter (f q) p m)).
    rewrite IH. simpl. rewrite lookup_alter.
    destruct (Z.eqb_spec p k) as [->|Hne].
    + rewrite decide_True by done. destruct (m !! k); simpl; [|done].
      rewrite Hadd. do 2 f_equal. lia.
    + by rewrite decide_False.
Qed.
End Shifts.

Lemma reserved_row_add a b inv :
  reserved_row a (reserved_row b inv) = reserved_row (a + b) inv.
Proof. unfold reserved_row. simpl. f_equal; lia. Qed.
Lemma reserved_row_zero inv : reserved_row 0 inv = inv.
Proof. destruct inv. unfold reserved_row. simpl. f_equal; lia. Qed.
Lemma released_row_add a b inv :
  released_row a (released_row b inv) = released_row (a + b) inv.
Proof. unfold released_row. simpl. f_equal; lia. Qed.
Lemma released_row_zero inv : released_row 0 inv = inv.
Proof. destruct inv. unfold released_row. simpl. f_equal; lia. Qed.
Lemma finalized_row_add a b inv :
  finalized_row a (finalized_row b inv) = finalized_row (a + b) inv.
Proof. unfold finalized_row. simpl. f_equal; lia. Qed.
Lemma finalized_row_zero inv : finalized_row 0 inv = inv.
Proof. destruct inv. unfold finalized_row. simpl. f_equal; lia. Qed.

Lemma set_inventory_id (st : Store) : set_inventory (fun m => m) st = st.
Proof. by destruct st. Qed.

Lemma session_eta (s : Session) :
  mkSession (committed s) (pending s) (lock_log s) (gateway_orders s) = s.
Proof. by destruct s. Qed.

(** The two order-level loops, run on a ledger that has a row for every
    item: each item shifts the row of its product. *)
Lemma finalize_items_run (items : list OrderItem) :
  ∀ s, (∀ it, it ∈ items → is_Some (inventory (pending s) !! oi_product_id it)) →
       finalize_items items s
       = (Return tt,
          mkSession (committed s)
            (set_inventory (shift_rows finalized_row (map line_of_order_item items))
                           (pending s))
            (lock_log s) (gateway_orders s)).
Proof.
  induction items as [|it rest IH]; intros s Hrows; simpl.
  - unfold ret. by rewrite set_inventory_id, session_eta.
  - unfold get_by_product_id. rewrite bind_read.
    destruct (Hrows it ltac:(left)) as [inv Hinv]. rewrite Hinv.
    unfold store_inventory. rewrite bind_write, IH.
    + simpl. unfold set_inventory. simpl.
      by rewrite (alter_present (finalized_row (oi_quantity it)) _ inv).
    + intros it' Hit'. simpl. rewrite lookup_insert. case_decide; [done|].
      apply Hrows. by right.
Qed.

Lemma rollback_items_run (items : list OrderItem) :
  ∀ s, (∀ it, it ∈ items → is_Some (inventory (pending s) !! oi_product_id it)) →
       rollback_items items s
       = (Return tt,
          mkSession (committed s)
            (set_inventory (shift_rows released_row (map line_of_order_item items))
                           (pending s))
            (lock_log s) (gateway_orders s)).
Proof.
  induction items as [|it rest IH]; intros s Hrows; simpl.
  - unfold ret. by rewrite set_inventory_id, session_eta.
  - unfold get_by_product_id. rewrite bind_read.
    destruct (Hrows it ltac:(left)) as [inv Hinv]. rewrite Hinv.
    unfold store_inventory. rewrite bind_write, IH.
    + simpl. unfold set_inventory. simpl.
      by rewrite (alter_present (released_row (oi_quantity it)) _ inv).
    + intros it' Hit'. simpl. rewrite lookup_insert. case_decide; [done|].
      apply Hrows. by right.
Qed.



(** The checkout loop, when it succeeds, has reserved line by line and
    touched no other table than inventory and order items. *)
Lemma order_lines_effects (items : list CartItem) :
  ∀ oid sub tot s acc s',
    order_lines oid items sub tot s = (Return acc, s') →
    inventory (pending s')
    = shift_rows reserved_row (map line_of_cart_item items) (inventory (pending s))
    ∧ carts (pending s') = carts (pending s)
    ∧ cart_items (pending s') = cart_items (pending s)
    ∧ payments (pending s') = payments (pending s)
    ∧ ∀ it, it ∈ items → is_Some (inventory (pending s) !! ci_product_id it).
Proof.
  induction items as [|it rest IH]; intros oid sub tot s acc s' Hrun; simpl in Hrun.
  - injection Hrun as <- <-. repeat split. intros it Hit. by apply elem_of_nil in Hit.
  - unfold query_active_product in Hrun. rewrite bind_read in Hrun. cbv beta in Hrun.
    destruct (products (pending s) !! ci_product_id it) as [p|]; [|discriminate Hrun].
    destruct (String.eqb (prod_status p) "active"); [|discriminate Hrun].
    unfold bind at 1, query_inventory_for_update in Hrun.
    destruct (inventory (pending s) !! ci_product_id it) as [inv|] eqn:Hinv;
      [|discriminate Hrun].
    destruct (available_stock inv <? ci_quantity it); [discriminate Hrun|].
    unfold store_inventory, add_order_item in Hrun. rewrite !bind_write in Hrun.
    cbv zeta in Hrun.
    apply IH in Hrun as (Hi & Hc & Hci & Hp & Hrows). simpl in Hi, Hc, Hci, Hp, Hrows.
    split.
    { rewrite Hi. simpl.
      by rewrite (alter_present (reserved_row (ci_quantity it)) _ inv). }
    split; [done|]. split; [done|]. split; [done|].
    intros it' Hit'. apply elem_of_cons in Hit' as [->|Hit']; [by rewrite Hinv|].
    specialize (Hrows it' Hit'). rewrite lookup_insert in Hrows.
    case_decide as Heq; [|done]. by rewrite <- Heq, Hinv.
Qed.

Lemma delete_cart_items_removed (items : list CartItem) :
  ∀ s r s', delete_cart_items items s = (r, s') →
    cart_items (pending s') = remove_items items (cart_items (pending s)).
Proof.
  induction items as [|it rest IH]; intros s r s' Hrun; simpl in Hrun.
  - by injection Hrun as <- <-.
  - unfold delete_cart_item in Hrun. rewrite bind_write in Hrun.
    apply IH in Hrun. by rewrite Hrun.
Qed.

Lemma elem_of_remove_items (items l : list CartItem) (x : CartItem) :
  x ∈ remove_items items l ↔ x ∈ l ∧ ci_id x ∉ map ci_id items.
Proof.
  revert l. induction items as [|it rest IH]; intros l; simpl.
  - split; [intros H; split; [done|apply not_elem_of_nil]|by intros [? _]].
  - unfold remove_items in *. simpl. rewrite IH, list_elem_of_filter, not_elem_of_cons.
    tauto.
Qed.

(** What a successful checkout leaves in the database. *)
Lemma create_order_from_cart_effects (s s' : Session) (uid : Z)
    (addr pm : option string) (r : option LoadedOrder) :
  create_order_from_cart uid addr pm s = (Return r, s') →
  inventory (committed s')
  = shift_rows reserved_row (map line_of_cart_item (valid_items_of (pending s) uid))
               (inventory (pending s))
  ∧ cart_items (committed s')
    = remove_items (valid_items_of (pending s) uid) (cart_items (pending s))
  ∧ carts (committed s') = carts (pending s)
  ∧ products (committed s') = products (pending s)
  ∧ payments (committed s') = payments (pending s)
  ∧ gateway_orders s' = gateway_orders s
  ∧ ∀ it, it ∈ valid_items_of (pending s) uid →
          is_Some (inventory (pending s) !! ci_product_id it).
Proof.
  intros Hrun.
  pose proof (create_order_from_cart_gateway _ _ _ _ _ _ Hrun) as Hgw.
  unfold create_order_from_cart, query_cart, cart_items_of in Hrun.
  unfold valid_items_of.
  rewrite bind_read in Hrun. cbv beta in Hrun.
  destruct (List.find _ (carts (pending s))) as [cart|]; [|discriminate Hrun].
  rewrite bind_read in Hrun. cbv beta zeta in Hrun.
  destruct (filter (λ item, 0 < ci_quantity item) _) as [|it rest] eqn:Hvalid;
    [discriminate Hrun|].
  apply bind_inv in Hrun as [(oid & s1 & Hadd & Hrun)|(e & _ & [=])].
  unfold add_order in Hadd. injection Hadd as <- <-.
  apply bind_inv in Hrun as [([sub tot] & s2 & Hlines & Hrun)|(e & _ & [=])].
  pose proof (order_lines_totals _ _ _ _ _ _ _ Hlines eq_refl) as (Hprod & _).
  apply order_lines_effects in Hlines as (Hi & Hc & Hci & Hp & Hrows).
  simpl in Hprod, Hi, Hc, Hci, Hp, Hrows.
  rewrite bind_write in Hrun.
  apply bind_inv in Hrun as [([] & s3 & Hdel & Hrun)|(e & _ & [=])].
  pose proof (delete_cart_items_removed _ _ _ _ Hdel) as Hrem.
  apply delete_cart_items_pending in Hdel as (_ & _ & _ & _ & Hpend).
  simpl in Hpend, Hrem.
  rewrite bind_commit in Hrun. unfold query_order_with_items, read in Hrun.
  simpl in Hrun. injection Hrun as _ <-. simpl.
  rewrite Hrem, Hci. rewrite Hpend. simpl. rewrite Hi, Hc, Hprod, Hp. done.
Qed.

(** ** What a checkout does to the ledger and the cart *)

(** X6.  A successful checkout moves, for every product, exactly the
    quantity its valid cart lines ask for from available to reserved
    stock and leaves the total; products the cart does not mention keep
    their rows, and no inventory row appears or disappears. *)
Theorem checkout_reserves_ordered_quantities (w w' : World) (user_id : Z)
    (shipping_address payment_method : option string) (r : option LoadedOrder)
    (Hrun : run_request (create_order_from_cart user_id shipping_address payment_method) w
            = (Return r, w')) :
  ∀ product_id,
    inventory (db w') !! product_id
    = reserved_row
        (ordered_quantity product_id
           (map line_of_cart_item (valid_items_of (db w) user_id)))
      <$> inventory (db w) !! product_id.
Proof.
  apply run_request_inv in Hrun as (s' & Hrun & ->).
  apply create_order_from_cart_effects in Hrun as (Hinv & _). simpl in *.
  intros k. rewrite Hinv.
  apply shift_rows_lookup; [apply reserved_row_add|apply reserved_row_zero].
Qed.

Lemma checkout_reserves_ordered_quantities_witness :
  ∃ r w',
    run_request (create_order_from_cart 7 None None) (two_line_world 2 1) = (Return r, w')
    ∧ inventory (db w') !! 1 = Some (mkInventory 5 3 2)
    ∧ inventory (db w') !! 2 = Some (mkInventory 1 0 1)
    ∧ inventory (db w') !! 3 = None.
Proof.
  assert (H : ∃ r w',
    run_request (create_order_from_cart 7 None None) (two_line_world 2 1) = (Return r, w'))
    by (vm_compute; eexists _, _; reflexivity).
  destruct H as (r & w' & H). exists r, w'. split; [exact H|].
  pose proof (checkout_reserves_ordered_quantities _ _ _ _ _ _ H) as Hrows.
  rewrite (Hrows 1), (Hrows 2), (Hrows 3). repeat split.
Defined.

Lemma run_checkout_without_items (w : World) (uid : Z) (addr pm : option string) :
  valid_items_of (db w) uid = [] →
  run_request (create_order_from_cart uid addr pm) w
  = (Raise (HTTPException 400
              match List.find (fun c => cart_user_id c =? uid) (carts (db w)) with
              | Some _ => "Cart is empty or has no valid items"
              | None => "Cart not found or empty"
              end), w).
Proof.
  intros Hvalid. destruct w as [st gw]. unfold valid_items_of in Hvalid. simpl in *.
  unfold run_request, create_order_from_cart, query_cart, cart_items_of.
  rewrite bind_read. simpl.
  destruct (List.find _ (carts st)) as [cart|]; [|reflexivity].
  rewrite bind_read. simpl. by rewrite Hvalid.
Qed.

Lemma list_without_elements {A} (l : list A) : (∀ x, x ∉ l) → l = [].
Proof. destruct l as [|a l]; [done|]. intros H. exfalso. apply (H a). by left. Qed.

(** X7.  A successful checkout deletes from the cart items table exactly
    the rows with the ids of the user's valid cart lines; the cart then
    has no valid line left, and checking out again fails with "Cart is
    empty or has no valid items" and changes nothing: a repeated checkout
    reserves no stock a second time. *)
Theorem checkout_consumes_cart (w w' : World) (user_id : Z)
    (shipping_address payment_method : option string) (r : option LoadedOrder)
    (Hrun : run_request (create_order_from_cart user_id shipping_address payment_method) w
            = (Return r, w')) :
  (∀ x, x ∈ cart_items (db w')
        ↔ x ∈ cart_items (db w)
          ∧ ci_id x ∉ map ci_id (valid_items_of (db w) user_id))
  ∧ valid_items_of (db w') user_id = []
  ∧ ∀ addr pm,
      run_request (create_order_from_cart user_id addr pm) w'
      = (Raise (HTTPException 400 "Cart is empty or has no valid items"), w').
Proof.
  pose proof Hrun as Hrun0.
  apply run_request_inv in Hrun as (s' & Hrun & ->).
  pose proof (create_order_from_cart_priced _ _ _ _ _ _ Hrun)
    as (oid & sub & tot & lines & _ & _ & _ & _ & _ & _ & Hne & _).
  apply create_order_from_cart_effects in Hrun as (_ & Hci & Hc & _).
  simpl in *.
  assert (Hmem : ∀ x, x ∈ cart_items (committed s')
             ↔ x ∈ cart_items (db w)
               ∧ ci_id x ∉ map ci_id (valid_items_of (db w) user_id)).
  { intros x. rewrite Hci. apply elem_of_remove_items. }
  assert (Hcart : ∃ cart, List.find (fun c => cart_user_id c =? user_id) (carts (db w))
                          = Some cart).
  { unfold valid_items_of in Hne.
    destruct (List.find _ (carts (db w))); [eauto|done]. }
  destruct Hcart as [cart Hcart].
  assert (Hempty : valid_items_of
                     (db (mkWorld (committed s') (gateway_orders s'))) user_id = []).
  { unfold valid_items_of. simpl. rewrite Hc, Hcart.
    apply list_without_elements. intros x Hx.
    apply list_elem_of_filter in Hx as [Hq Hx].
    apply list_elem_of_filter in Hx as [Hcid Hx].
    apply Hmem in Hx as [Hx Hid]. apply Hid.
    apply (list_elem_of_fmap_2 ci_id). unfold valid_items_of. rewrite Hcart.
    apply list_elem_of_filter. split; [done|]. by apply list_elem_of_filter. }
  split; [exact Hmem|]. split; [exact Hempty|].
  intros addr pm. rewrite run_checkout_without_items by exact Hempty.
  simpl. by rewrite Hc, Hcart.
Qed.

Lemma checkout_consumes_cart_witness :
  ∃ r w',
    run_request (create_order_from_cart 7 None None) scenario_world = (Return r, w')
    ∧ cart_items (db w') = []
    ∧ run_request (create_order_from_cart 7 None None) w'
      = (Raise (HTTPException 400 "Cart is empty or has no valid items"), w').
Proof.
  assert (H : ∃ r w',
    run_request (create_order_from_cart 7 None None) scenario_world = (Return r, w')
    ∧ cart_items (db w') = [])
    by (vm_compute; eexists _, _; split; reflexivity).
  destruct H as (r & w' & H & Hci). exists r, w'. split; [exact H|]. split; [exact Hci|].
  exact (proj2 (proj2 (checkout_consumes_cart _ _ _ _ _ _ H)) None None).
Defined.

(** X8.  A successful checkout leaves the carts, the product catalogue,
    the payments and the gateway as they were, keeps every order that
    existed, and adds one order under an id no order had. *)
Theorem checkout_frame (w w' : World) (user_id : Z)
    (shipping_address payment_method : option string) (r : option LoadedOrder)
    (Hrun : run_request (create_order_from_cart user_id shipping_address payment_method) w
            = (Return r, w')) :
  carts (db w') = carts (db w)
  ∧ products (db w') = products (db w)
  ∧ payments (db w') = payments (db w)
  ∧ gateway w' = gateway w
  ∧ ∃ lo, r = Some lo
          ∧ orders (db w) !! lo_id lo = None
          ∧ orders (db w') = <[lo_id lo := lo_order lo]> (orders (db w))
          ∧ ord_user_id (lo_order lo) = user_id
          ∧ ord_status (lo_order lo) = "PENDING"
          ∧ ord_shipping_address (lo_order lo) = shipping_address
          ∧ ord_payment_method (lo_order lo) = payment_method.
Proof.
  apply run_request_inv in Hrun as (s' & Hrun & ->).
  pose proof (create_order_from_cart_priced _ _ _ _ _ _ Hrun)
    as (oid & sub & tot & lines & Hr & Hord & Hfresh & _).
  apply create_order_from_cart_effects in Hrun as (_ & _ & Hc & Hp & Hpay & Hgw & _).
  simpl in *. split; [done|]. split; [done|]. split; [done|]. split; [done|].
  eexists. split; [exact Hr|]. simpl.
  split; [by apply not_elem_of_dom|]. by split.
Qed.

Lemma checkout_frame_witness :
  ∃ r w',
    run_request (create_order_from_cart 7 (Some "12 Elm St") (Some "CARD")) scenario_world
    = (Return r, w')
    ∧ payments (db w') = []
    ∧ products (db w') = products (db scenario_world).
Proof.
  assert (H : ∃ r w',
    run_request (create_order_from_cart 7 (Some "12 Elm St") (Some "CARD")) scenario_world
    = (Return r, w')) by (vm_compute; eexists _, _; reflexivity).
  destruct H as (r & w' & H). exists r, w'. split; [exact H|].
  destruct (checkout_frame _ _ _ _ _ _ H) as (_ & Hp & Hpay & _).
  split; [exact Hpay|exact Hp].
Defined.

(** ** Releasing and finalizing the stock of an order *)

Lemma filter_all {A} (P : A → Prop) `{∀ x, Decision (P x)} (l : list A) :
  (∀ x, x ∈ l → P x) → filter P l = l.
Proof.
  induction l as [|a l IH]; intros HP; [done|].
  rewrite filter_cons_True by (apply HP; by left).
  f_equal. apply IH. intros x Hx. apply HP. by right.
Qed.

Lemma filter_none {A} (P : A → Prop) `{∀ x, Decision (P x)} (l : list A) :
  (∀ x, x ∈ l → ¬ P x) → filter P l = [].
Proof.
  induction l as [|a l IH]; intros HP; [done|].
  rewrite filter_cons_False by (apply HP; by left).
  apply IH. intros x Hx. apply HP. by right.
Qed.

Lemma sold_row_split q inv : finalized_row q (reserved_row q inv) = sold_row q inv.
Proof. unfold finalized_row, reserved_row, sold_row. simpl. f_equal; lia. Qed.

Lemma released_reserved q inv : released_row q (reserved_row q inv) = inv.
Proof. destruct inv. unfold released_row, reserved_row. simpl. f_equal; lia. Qed.

(** What a successful checkout hands to the order-level stock
    operations: the order's items are the new lines, every line has its
    inventory row, and the ledger is the old one with the lines reserved. *)
Lemma checkout_hands_over (w w' : World) (uid : Z) (addr pm : option string)
    (r : option LoadedOrder) :
  run_request (create_order_from_cart uid addr pm) w = (Return r, w') →
  order_items_reference_orders (db w) →
  ∃ lo lines,
    r = Some lo
    ∧ lines ≠ []
    ∧ filter (fun it => oi_order_id it = lo_id lo) (order_items (db w')) = lines
    ∧ map line_of_order_item lines = map line_of_cart_item (valid_items_of (db w) uid)
    ∧ (∀ it, it ∈ lines → is_Some (inventory (db w') !! oi_product_id it))
    ∧ inventory (db w')
      = shift_rows reserved_row (map line_of_order_item lines) (inventory (db w)).
Proof.
  intros Hrun Hfk.
  apply run_request_inv in Hrun as (s' & Hrun & ->).
  pose proof (create_order_from_cart_priced _ _ _ _ _ _ Hrun)
    as (oid & sub & tot & lines & Hr & _ & Hfresh & Hitems & Hlines & Hmap & Hne & _).
  apply create_order_from_cart_effects in Hrun as (Hinv & _ & _ & _ & _ & _ & Hrows).
  simpl in *. eexists _, lines. split; [exact Hr|]. simpl.
  split. { intros ->. simpl in Hmap. by destruct (valid_items_of (db w) uid). }
  split.
  { rewrite Hitems, filter_app, filter_none, filter_all; [done| |].
    - intros x Hx. rewrite Forall_forall in Hlines. by destruct (Hlines x Hx).
    - intros x Hx Heq. apply Hfresh. rewrite <- Heq. by apply Hfk. }
  split; [done|]. rewrite Hmap. split; [|done].
  intros it Hit. rewrite Hinv.
  rewrite (shift_rows_lookup reserved_row reserved_row_add reserved_row_zero).
  apply fmap_is_Some.
  assert (Hin : line_of_order_item it ∈ map line_of_order_item lines)
    by (by apply list_elem_of_fmap_2).
  rewrite Hmap in Hin. apply list_elem_of_fmap in Hin as (ci & Heq & Hci).
  injection Heq as -> _. by apply Hrows.
Qed.

Lemma run_rollback_stock_rows (w : World) (oid : Z) (lines : list OrderItem) :
  filter (fun x => oi_order_id x = oid) (order_items (db w)) = lines →
  lines ≠ [] →
  (∀ x, x ∈ lines → is_Some (inventory (db w) !! oi_product_id x)) →
  run_request (rollback_stock oid) w
  = (Return tt,
     mkWorld (set_inventory (shift_rows released_row (map line_of_order_item lines))
                            (db w))
             (gateway w)).
Proof.
  intros Hitems Hne Hrows. destruct w as [st gw]. simpl in *.
  unfold run_request, rollback_stock, query_order_items. rewrite bind_read.
  simpl. rewrite Hitems.
  destruct lines as [|it rest] eqn:Hl; [done|]. rewrite <- Hl in *.
  unfold bind at 1. rewrite rollback_items_run by done. reflexivity.
Qed.

Lemma run_finalize_stock_rows (w : World) (oid : Z) :
  (∀ x, x ∈ filter (fun x => oi_order_id x = oid) (order_items (db w)) →
        is_Some (inventory (db w) !! oi_product_id x)) →
  run_request (finalize_stock oid) w
  = (Return tt,
     mkWorld (set_inventory
                (shift_rows finalized_row
                   (map line_of_order_item
                      (filter (fun x => oi_order_id x = oid) (order_items (db w)))))
                (db w))
             (gateway w)).
Proof.
  intros Hrows. destruct w as [st gw]. simpl in *.
  unfold run_request, finalize_stock, query_order_items. rewrite bind_read. simpl.
  unfold bind at 1. rewrite finalize_items_run by done. reflexivity.
Qed.

(** X9.  Releasing the stock of an order right after the checkout that
    created it undoes the checkout's reservations: [rollback_stock]
    succeeds and every inventory row is back to what it was before the
    checkout (in a store whose order items all belong to orders). *)
Theorem checkout_then_rollback_restores_ledger (w w' : World) (user_id : Z)
    (shipping_address payment_method : option string) (lo : LoadedOrder)
    (Hrun : run_request (create_order_from_cart user_id shipping_address payment_method) w
            = (Return (Some lo), w'))
    (Hfk : order_items_reference_orders (db w)) :
  ∃ w'', run_request (rollback_stock (lo_id lo)) w' = (Return tt, w'')
         ∧ inventory (db w'') = inventory (db w).
Proof.
  destruct (checkout_hands_over _ _ _ _ _ _ Hrun Hfk)
    as (lo' & lines & [= <-] & Hne & Hitems & Hmap & Hrows & Hinv).
  rewrite (run_rollback_stock_rows _ _ _ Hitems Hne Hrows).
  eexists. split; [reflexivity|]. simpl. rewrite Hinv.
  apply map_eq. intros k.
  rewrite (shift_rows_lookup released_row released_row_add released_row_zero).
  rewrite (shift_rows_lookup reserved_row reserved_row_add reserved_row_zero).
  destruct (inventory (db w) !! k); simpl; [|done]. by rewrite released_reserved.
Qed.

Lemma scenario_world_references : order_items_reference_orders (db scenario_world).
Proof. intros it Hit. simpl in Hit. by apply elem_of_nil in Hit. Qed.

Lemma checkout_then_rollback_restores_ledger_witness :
  ∃ lo w' w'',
    run_request (create_order_from_cart 7 None None) scenario_world
    = (Return (Some lo), w')
    ∧ inventory (db w') !! 10 = Some (mkInventory 5 2 3)
    ∧ run_request (rollback_stock (lo_id lo)) w' = (Return tt, w'')
    ∧ inventory (db w'') = inventory (db scenario_world).
Proof.
  assert (H : ∃ lo w',
    run_request (create_order_from_cart 7 None None) scenario_world
    = (Return (Some lo), w')
    ∧ inventory (db w') !! 10 = Some (mkInventory 5 2 3))
    by (vm_compute; eexists _, _; split; reflexivity).
  destruct H as (lo & w' & H & Hrow).
  destruct (checkout_then_rollback_restores_ledger _ _ _ _ _ _ H
              scenario_world_references) as (w'' & Hback & Hinv).
  exists lo, w', w''. split; [exact H|]. split; [exact Hrow|].
  split; [exact Hback|exact Hinv].
Defined.

(** X10.  Finalizing the stock of an order right after the checkout that
    created it turns the reservation into a sale: [finalize_stock]
    succeeds, and against the ledger before the checkout every product
    has lost the ordered quantity from its total and its available stock
    while its reserved stock is what it was. *)
Theorem checkout_then_finalize_sells (w w' : World) (user_id : Z)
    (shipping_address payment_method : option string) (lo : LoadedOrder)
    (Hrun : run_request (create_order_from_cart user_id shipping_address payment_method) w
            = (Return (Some lo), w'))
    (Hfk : order_items_reference_orders (db w)) :
  ∃ w'', run_request (finalize_stock (lo_id lo)) w' = (Return tt, w'')
         ∧ ∀ product_id,
             inventory (db w'') !! product_id
             = sold_row
                 (ordered_quantity product_id
                    (map line_of_cart_item (valid_items_of (db w) user_id)))
               <$> inventory (db w) !! product_id.
Proof.
  destruct (checkout_hands_over _ _ _ _ _ _ Hrun Hfk)
    as (lo' & lines & [= <-] & Hne & Hitems & Hmap & Hrows & Hinv).
  rewrite run_finalize_stock_rows by (by rewrite Hitems).
  eexists. split; [reflexivity|]. intros k. simpl. rewrite Hitems, Hinv.
  rewrite (shift_rows_lookup finalized_row finalized_row_add finalized_row_zero).
  rewrite (shift_rows_lookup reserved_row reserved_row_add reserved_row_zero).
  rewrite Hmap. destruct (inventory (db w) !! k); simpl; [|done].
  by rewrite sold_row_split.
Qed.

Lemma checkout_then_finalize_sells_witness :
  ∃ lo w' w'',
    run_request (create_order_from_cart 7 None None) scenario_world
    = (Return (Some lo), w')
    ∧ run_request (finalize_stock (lo_id lo)) w' = (Return tt, w'')
    ∧ inventory (db w'') !! 10 = Some (mkInventory 2 2 0).
Proof.
  assert (H : ∃ lo w',
    run_request (create_order_from_cart 7 None None) scenario_world
    = (Return (Some lo), w')) by (vm_compute; eexists _, _; reflexivity).
  destruct H as (lo & w' & H).
  destruct (checkout_then_finalize_sells _ _ _ _ _ _ H scenario_world_references)
    as (w'' & Hfin & Hrows).
  exists lo, w', w''. split; [exact H|]. split; [exact Hfin|].
  rewrite (Hrows 10). reflexivity.
Defined.

(** ** How the order-level stock operations end *)



Lemma world_eta (w : World) : mkWorld (db w) (gateway w) = w.
Proof. by destruct w. Qed.


(** ** How a checkout fails, and when it cannot *)









(** ** Reading and updating orders *)

Lemma run_get_order_for_user (w : World) (oid uid : Z) :
  run_request (get_order_for_user oid uid) w =
  match orders (db w) !! oid with
  | None => (Raise (HTTPException 404 "Order not found"), w)
  | Some o =>
      if negb (ord_user_id o =? uid)
      then (Raise (HTTPException 403 "Not authorized to access this order"), w)
      else (Return (mkLoadedOrder oid o (items_of_order (db w) oid)), w)
  end.
Proof.
  destruct w as [st gw].
  unfold run_request, get_order_for_user, query_order_with_items, items_of_order.
  rewrite bind_read. simpl.
  destruct (orders st !! oid) as [o|]; [|reflexivity]. simpl.
  destruct (ord_user_id o =? uid); reflexivity.
Qed.

(** X14.  [get_order_for_user] never writes, and what it returns is the
    stored order of that id with exactly its own items, and only to its
    owner: a foreign order gives 403, a missing one 404. *)
Theorem get_order_for_user_ownership (w : World) (order_id user_id : Z) :
  snd (run_request (get_order_for_user order_id user_id) w) = w
  ∧ match fst (run_request (get_order_for_user order_id user_id) w) with
    | Return lo =>
        lo_id lo = order_id
        ∧ orders (db w) !! order_id = Some (lo_order lo)
        ∧ ord_user_id (lo_order lo) = user_id
        ∧ ∀ it, it ∈ lo_items lo ↔ it ∈ order_items (db w) ∧ oi_order_id it = order_id
    | Raise e =>
        match orders (db w) !! order_id with
        | None => e = HTTPException 404 "Order not found"
        | Some o =>
            ord_user_id o ≠ user_id
            ∧ e = HTTPException 403 "Not authorized to access this order"
        end
    end.
Proof.
  rewrite run_get_order_for_user.
  destruct (orders (db w) !! order_id) as [o|]; [|done].
  destruct (Z.eqb_spec (ord_user_id o) user_id) as [Heq|Hne]; simpl; [|done].
  split; [done|]. split; [done|]. split; [done|]. split; [done|].
  intros it. unfold items_of_order. rewrite list_elem_of_filter. tauto.
Qed.

Lemma allowed_status_existsb (new_status : string) :
  existsb (String.eqb new_status) ALLOWED_STATUSES = true
  ↔ new_status ∈ ALLOWED_STATUSES.
Proof.
  rewrite existsb_exists. split.
  - intros (x & Hx & Heq). apply String.eqb_eq in Heq as ->. by apply list_elem_of_In.
  - intros Hin. exists new_status. split; [by apply list_elem_of_In|].
    apply String.eqb_refl.
Qed.

(** X15.  [update_status] accepts any of the six allowed statuses for an
    existing order, from whatever status the order has: it sets the
    status and nothing else.  Setting the same status again changes
    nothing, and a later update overrides an earlier one.  A status
    outside the allowed set is rejected with 400 before the order is even
    looked up, and nothing is written. *)
Theorem update_status_last_write_wins (w : World) (order_id : Z) (o : Order)
    (s1 s2 : string)
    (Horder : orders (db w) !! order_id = Some o)
    (Hs1 : s1 ∈ ALLOWED_STATUSES) (Hs2 : s2 ∈ ALLOWED_STATUSES) :
  ∃ w1,
    run_request (update_status order_id s1) w = (Return (set_status s1 o), w1)
    ∧ orders (db w1) = <[order_id := set_status s1 o]> (orders (db w))
    ∧ run_request (update_status order_id s1) w1 = (Return (set_status s1 o), w1)
    ∧ run_request (update_status order_id s2) w1
      = run_request (update_status order_id s2) w
    ∧ ∀ bad any_id, bad ∉ ALLOWED_STATUSES →
        run_request (update_status any_id bad) w
        = (Raise (HTTPException 400 ("Invalid order status '" +:+ bad +:+ "'")), w).
Proof.
  apply allowed_status_existsb in Hs1, Hs2.
  rewrite run_update_status, Hs1, Horder. simpl. eexists. split; [reflexivity|].
  simpl. split; [done|]. split; [|split].
  - rewrite run_update_status, Hs1. simpl. rewrite lookup_insert_eq.
    unfold set_orders. simpl. by rewrite insert_insert_eq.
  - rewrite !run_update_status, Hs2. simpl. rewrite lookup_insert_eq, Horder.
    unfold set_orders. simpl. by rewrite insert_insert_eq.
  - intros bad any_id Hbad. rewrite run_update_status.
    destruct (existsb (String.eqb bad) ALLOWED_STATUSES) eqn:Hex; [|done].
    exfalso. apply Hbad. by apply allowed_status_existsb.
Qed.

Lemma update_status_last_write_wins_witness :
  ∃ w1,
    run_request (update_status 1 "SHIPPED") (payment_world "PAID" [])
    = (Return (mkOrder 7 3 (mkDecimal 3000 2) (mkDecimal 540 2) ZERO_MONEY
                       (mkDecimal 3540 2) "SHIPPED" None None), w1)
    ∧ run_request (update_status 1 "PENDING") w1
      = run_request (update_status 1 "PENDING") (payment_world "PAID" []).
Proof.
  assert (Ha : "SHIPPED" ∈ ALLOWED_STATUSES) by (apply allowed_status_existsb; reflexivity).
  assert (Hb : "PENDING" ∈ ALLOWED_STATUSES) by (apply allowed_status_existsb; reflexivity).
  destruct (update_status_last_write_wins (payment_world "PAID" []) 1 _ "SHIPPED" "PENDING"
              eq_refl Ha Hb) as (w1 & Hrun & _ & _ & Hlast & _).
  exists w1. split; [exact Hrun|exact Hlast].
Defined.

(** ** Deleting a product *)

Lemma run_delete_product (w : World) (pid : Z) :
  run_request (delete_product pid) w =
  match products (db w) !! pid with
  | None => (Raise (HTTPException 404 "Product not found"), w)
  | Some p =>
      if String.eqb (prod_status p) "deleted"
      then (Raise (HTTPException 404 "Product not found"), w)
      else
        let p' := mkProduct (prod_name p) (prod_price p) "deleted" in
        (Return p', mkWorld (set_products <[pid := p']> (db w)) (gateway w))
  end.
Proof.
  destruct w as [st gw]. unfold run_request, delete_product, get_product.
  rewrite bind_read. simpl.
  destruct (products st !! pid) as [p|]; [|reflexivity].
  destruct (String.eqb (prod_status p) "deleted"); reflexivity.
Qed.

(** A checkout that succeeds has found every valid line's product
    active. *)
Lemma checkout_needs_active_products (w w' : World) (uid : Z) (addr pm : option string)
    (r : option LoadedOrder) :
  run_request (create_order_from_cart uid addr pm) w = (Return r, w') →
  ∀ item, item ∈ valid_items_of (db w) uid →
          ∃ p, products (db w) !! ci_product_id item = Some p ∧ prod_status p = "active".
Proof.
  intros Hrun item Hitem.
  apply run_request_inv in Hrun as (s' & Hrun & _).
  apply create_order_from_cart_priced in Hrun
    as (oid & sub & tot & lines & _ & _ & _ & _ & Hlines & Hmap & _). simpl in *.
  assert (Hin : line_of_cart_item item ∈ map line_of_order_item lines).
  { rewrite Hmap. by apply (list_elem_of_fmap_2 line_of_cart_item). }
  apply list_elem_of_fmap in Hin as (it & Heq & Hit). injection Heq as Hpid _.
  rewrite Forall_forall in Hlines.
  destruct (Hlines it Hit) as (_ & (p & Hp & Hactive & _) & _).
  exists p. by rewrite Hpid.
Qed.

Lemma checkout_failure_unchanged (w w' : World) (uid : Z) (addr pm : option string)
    (e : Exception) :
  run_request (create_order_from_cart uid addr pm) w = (Raise e, w') → w' = w.
Proof.
  intros Hfail. apply run_request_inv in Hfail as (s' & Hrun & ->).
  rewrite (create_order_from_cart_uncommitted _ _ _ _ _ _ Hrun).
  rewrite (create_order_from_cart_gateway _ _ _ _ _ _ Hrun).
  apply world_eta.
Qed.

(** X16.  Deleting a product is a soft delete: the row stays in the
    catalogue with status "deleted", no other product, no inventory row
    and no cart changes.  The product then counts as not found - deleting
    it again gives 404 - and every checkout whose cart has a valid line
    for it fails and reserves nothing. *)
Theorem deleted_product_blocks_checkout (w : World) (product_id : Z) (p : Product)
    (Hproduct : products (db w) !! product_id = Some p)
    (Hlive : prod_status p ≠ "deleted") :
  ∃ w1,
    run_request (delete_product product_id) w
    = (Return (mkProduct (prod_name p) (prod_price p) "deleted"), w1)
    ∧ products (db w1)
      = <[product_id := mkProduct (prod_name p) (prod_price p) "deleted"]>
          (products (db w))
    ∧ inventory (db w1) = inventory (db w)
    ∧ carts (db w1) = carts (db w)
    ∧ cart_items (db w1) = cart_items (db w)
    ∧ run_request (delete_product product_id) w1
      = (Raise (HTTPException 404 "Product not found"), w1)
    ∧ ∀ user_id addr pm item,
        item ∈ valid_items_of (db w1) user_id →
        ci_product_id item = product_id →
        ∃ e, run_request (create_order_from_cart user_id addr pm) w1 = (Raise e, w1).
Proof.
  rewrite run_delete_product, Hproduct.
  destruct (String.eqb_spec (prod_status p) "deleted") as [|_]; [done|].
  eexists. split; [reflexivity|]. simpl.
  split; [done|]. split; [done|]. split; [done|]. split; [done|]. split.
  - rewrite run_delete_product. simpl. by rewrite lookup_insert_eq.
  - intros uid addr pm item Hitem Hpid.
    destruct (run_request (create_order_from_cart uid addr pm) _) as [[r|e] w'] eqn:Hrun.
    + exfalso.
      destruct (checkout_needs_active_products _ _ _ _ _ _ Hrun item Hitem)
        as (p' & Hp' & Hactive).
      simpl in Hp'. rewrite Hpid, lookup_insert_eq in Hp'. by injection Hp' as <-.
    + exists e. by rewrite (checkout_failure_unchanged _ _ _ _ _ _ Hrun).
Qed.

Lemma deleted_product_blocks_checkout_witness :
  ∃ w1,
    run_request (delete_product 10) scenario_world
    = (Return (mkProduct "A" (mkDecimal 1000 2) "deleted"), w1)
    ∧ run_request (delete_product 10) w1
      = (Raise (HTTPException 404 "Product not found"), w1)
    ∧ ∃ e, run_request (create_order_from_cart 7 None None) w1 = (Raise e, w1).
Proof.
  destruct (deleted_product_blocks_checkout scenario_world 10
              (mkProduct "A" (mkDecimal 1000 2) "active") eq_refl ltac:(discriminate))
    as (w1 & Hdel & Hprod & _ & Hcarts & Hitems & Hagain & Hblock).
  exists w1. split; [exact Hdel|]. split; [exact Hagain|].
  apply (Hblock 7 None None (mkCartItem 1 1 10 3)); [|reflexivity].
  unfold valid_items_of. rewrite Hcarts, Hitems. vm_compute. by left.
Defined.

(** ** Opening a payment session *)



Section SessionCreation.
Context `{client : RazorpayClient}.


End SessionCreation.



(** ** What a verification can and cannot change *)

Lemma replace_payment_lookup (p' : Payment) (l : list Payment) (i : nat) :
  replace_payment p' l !! i
  = (fun q => if pay_id q =? pay_id p' then p' else q) <$> l !! i.
Proof. unfold replace_payment. apply list_lookup_fmap. Qed.

Section VerificationFrame.
Context `{client : RazorpayClient}.

(** The payments table after a verification: as before, or with the row
    the lookup found replaced by its FAILED or captured version. *)
Lemma verify_payments_cases (w w1 : World) (uid : Z) (data : PaymentVerifyRequest)
    (r : result PaymentRead) :
  run_request (verify_and_capture_payment uid data) w = (r, w1) →
  payments (db w1) = payments (db w)
  ∨ ∃ p p',
      find_session (db w) uid data = Some p
      ∧ pay_status p ≠ "SUCCESS"
      ∧ (p' = with_status "FAILED" p ∨ p' = captured_by data p)
      ∧ payments (db w1) = replace_payment p' (payments (db w)).
Proof.
  intros H. rewrite run_verify_and_capture_payment in H.
  destruct (find_session (db w) uid data) as [p|] eqn:Hf.
  2:{ injection H as _ <-. by left. }
  destruct (String.eqb_spec (pay_status p) "SUCCESS") as [|Hs].
  { injection H as _ <-. by left. }
  destruct (negb (signature_ok data)).
  { injection H as _ <-. right. exists p, (with_status "FAILED" p). eauto. }
  destruct (existsb _ (payments (db w))).
  { injection H as _ <-. by left. }
  injection H as _ <-. right. exists p, (captured_by data p). simpl.
  rewrite payments_mark_paid. eauto.
Qed.

(** X19.  A verification by a user never adds or removes a payment row
    and never changes the id, order, user, gateway order id, amount or
    currency of any row; and in a well-formed table it leaves every row
    of another user and every row that is already SUCCESS exactly as it
    is, whatever the payload and the outcome. *)
Theorem verify_changes_one_open_row_of_the_user (w w1 : World) (user_id : Z)
    (data : PaymentVerifyRequest) (r : result PaymentRead)
    (Hrun : run_request (verify_and_capture_payment user_id data) w = (r, w1))
    (Hwf : payments_wf (payments (db w))) :
  map payment_identity (payments (db w1)) = map payment_identity (payments (db w))
  ∧ ∀ i q, payments (db w) !! i = Some q →
           pay_user_id q ≠ user_id ∨ pay_status q = "SUCCESS" →
           payments (db w1) !! i = Some q.
Proof.
  destruct Hwf as [Hnd _].
  apply verify_payments_cases in Hrun as [->|(p & p' & Hf & Hs & Hp' & ->)]; [done|].
  pose proof (find_elem_of _ _ _ Hf) as [Hin Hsess].
  apply session_of_inv in Hsess as (_ & Hu & _).
  assert (Hid : payment_identity p' = payment_identity p) by (by destruct Hp' as [->| ->]).
  assert (Hpid : pay_id p' = pay_id p) by (by destruct Hp' as [->| ->]).
  split.
  - unfold replace_payment. rewrite map_map. apply map_ext_in. intros q Hq.
    apply list_elem_of_In in Hq.
    destruct (Z.eqb_spec (pay_id q) (pay_id p')) as [Heq|]; [|done].
    rewrite Hid. f_equal. symmetry.
    apply (payments_wf_same_row (payments (db w))); try done. congruence.
  - intros i q Hq Hkeep. rewrite replace_payment_lookup, Hq. simpl.
    destruct (Z.eqb_spec (pay_id q) (pay_id p')) as [Heq|]; [|done].
    exfalso.
    assert (q = p).
    { apply (payments_wf_same_row (payments (db w))); try done.
      - by apply list_elem_of_lookup_2 in Hq.
      - congruence. }
    subst q. by destruct Hkeep.
Qed.

(** X20.  A verification never takes an order out of PAID and never
    writes anything of an order but its status: every order is afterwards
    what it was, or what it was with status PAID. *)
Theorem verify_only_marks_paid (w w1 : World) (user_id : Z)
    (data : PaymentVerifyRequest) (r : result PaymentRead)
    (Hrun : run_request (verify_and_capture_payment user_id data) w = (r, w1)) :
  dom (orders (db w1)) = dom (orders (db w))
  ∧ ∀ order_id o, orders (db w) !! order_id = Some o →
      orders (db w1) !! order_id = Some o
      ∨ (ord_status o ≠ "PAID"
         ∧ orders (db w1) !! order_id = Some (set_status "PAID" o)).
Proof.
  assert (Hmark : ∀ oid st,
    dom (orders (mark_paid oid st)) = dom (orders st)
    ∧ ∀ order_id o, orders st !! order_id = Some o →
        orders (mark_paid oid st) !! order_id = Some o
        ∨ (ord_status o ≠ "PAID"
           ∧ orders (mark_paid oid st) !! order_id = Some (set_status "PAID" o))).
  { intros oid st. unfold mark_paid.
    destruct (orders st !! oid) as [o0|] eqn:Ho0; [|by eauto].
    destruct (String.eqb_spec (ord_status o0) "PAID") as [|Hs]; simpl; [by eauto|].
    split.
    - rewrite dom_insert_L. apply elem_of_dom_2 in Ho0.
      apply subseteq_union_1_L. by apply singleton_subseteq_l.
    - intros order_id o Ho. destruct (decide (oid = order_id)) as [->|Hne].
      + right. rewrite lookup_insert_eq. split; congruence.
      + left. by rewrite lookup_insert_ne. }
  rewrite run_verify_and_capture_payment in Hrun.
  destruct (find_session (db w) user_id data) as [p|].
  2:{ injection Hrun as _ <-. eauto. }
  destruct (String.eqb (pay_status p) "SUCCESS"). { injection Hrun as _ <-. eauto. }
  destruct (negb (signature_ok data)). { injection Hrun as _ <-. simpl. eauto. }
  destruct (existsb _ (payments (db w))). { injection Hrun as _ <-. eauto. }
  injection Hrun as _ <-. simpl.
  apply (Hmark (pay_order_id p)
               (set_payments (replace_payment (captured_by data p)) (db w))).
Qed.

(** X21.  After a verification has captured a payment for an order of
    the user, the order is PAID and the user cannot open another payment
    session for it: [create_payment_session] fails with "Order already
    paid" and creates nothing. *)
Theorem captured_order_takes_no_new_session (w : World) (user_id : Z)
    (data : PaymentVerifyRequest) (p : Payment) (o : Order)
    (Hfound : find_session (db w) user_id data = Some p)
    (Hstatus : pay_status p ≠ "SUCCESS")
    (Hsignature : signature_ok data = true)
    (Hfree : ¬ uniqueness_violated_by (captured_by data p) (payments (db w)))
    (Horder : orders (db w) !! pvr_order_id data = Some o)
    (Howner : ord_user_id o = user_id) :
  ∃ w1,
    run_request (verify_and_capture_payment user_id data) w
    = (Return (payment_read (captured_by data p)), w1)
    ∧ orders (db w1) !! pvr_order_id data = Some (set_status "PAID" o)
    ∧ run_request (create_payment_session user_id (pvr_order_id data)) w1
      = (Raise (HTTPException 400 "Order already paid"), w1).
Proof.
  pose proof (find_elem_of _ _ _ Hfound) as [Hin Hsess].
  apply session_of_inv in Hsess as (Hoid & _ & _).
  rewrite run_verify_and_capture_payment, Hfound, Hsignature.
  destruct (String.eqb_spec (pay_status p) "SUCCESS") as [|_]; [done|]. simpl.
  destruct (existsb _ (payments (db w))) eqn:Hc.
  { by apply existsb_capture_conflicts in Hc. }
  eexists. split; [reflexivity|].
  assert (Hpaid : orders (mark_paid (pay_order_id p)
                            (set_payments (replace_payment (captured_by data p)) (db w)))
                  !! pvr_order_id data = Some (set_status "PAID" o)).
  { unfold mark_paid. simpl. rewrite Hoid, Horder.
    destruct (String.eqb_spec (ord_status o) "PAID") as [Hs|Hs]; simpl.
    - rewrite Horder. f_equal. destruct o; simpl in *; by subst.
    - by rewrite lookup_insert_eq. }
  split; [exact Hpaid|].
  rewrite run_create_payment_session. simpl. rewrite Hpaid. simpl.
  by rewrite Howner, Z.eqb_refl.
Qed.
End VerificationFrame.

Lemma verify_changes_one_open_row_of_the_user_witness :
  ∃ r w1,
    run_request (@verify_and_capture_payment sample_client 7 replayed_capture_request)
                (payment_world "PAID"
                   [session_row 1 "order_0" "SUCCESS"; session_row 2 "order_1" "PENDING"])
    = (r, w1)
    ∧ payments (db w1) !! 0%nat = Some (session_row 1 "order_0" "SUCCESS").
Proof.
  assert (Hwf : payments_wf
    [session_row 1 "order_0" "SUCCESS"; session_row 2 "order_1" "PENDING"]).
  { split.
    - apply (bool_decide_unpack _). by vm_compute.
    - intros p q x Hp _ _ Hpx _.
      apply elem_of_cons in Hp as [->|Hp]; [discriminate Hpx|].
      apply list_elem_of_singleton in Hp as ->. discriminate Hpx. }
  destruct (run_request (@verify_and_capture_payment sample_client 7
                           replayed_capture_request)
              (payment_world "PAID"
                 [session_row 1 "order_0" "SUCCESS"; session_row 2 "order_1" "PENDING"]))
    as [r w1] eqn:Hrun.
  exists r, w1. split; [reflexivity|].
  apply (proj2 (@verify_changes_one_open_row_of_the_user sample_client _ _ _ _ _ Hrun Hwf)
               0%nat (session_row 1 "order_0" "SUCCESS") eq_refl).
  by right.
Defined.

Lemma verify_only_marks_paid_witness :
  ∃ r w1,
    run_request (@verify_and_capture_payment sample_client 7 valid_request)
                one_session_world = (r, w1)
    ∧ ord_status <$> orders (db w1) !! 1 = Some "PAID".
Proof.
  assert (H : ∃ r w1,
    run_request (@verify_and_capture_payment sample_client 7 valid_request)
                one_session_world = (r, w1)
    ∧ ord_status <$> orders (db w1) !! 1 = Some "PAID")
    by (vm_compute; eexists _, _; split; reflexivity).
  destruct H as (r & w1 & H & Hpaid). exists r, w1. split; [exact H|].
  destruct (proj2 (@verify_only_marks_paid sample_client _ _ _ _ _ H) 1 _ eq_refl)
    as [Hsame|[_ Hmarked]].
  - exact Hpaid.
  - by rewrite Hmarked.
Defined.

Lemma captured_order_takes_no_new_session_witness :
  ∃ w1,
    run_request (@verify_and_capture_payment sample_client 7 valid_request)
                one_session_world
    = (Return (mkPaymentRead 1 1 7 "SUCCESS" (mkDecimal 3540 2) "INR"), w1)
    ∧ run_request (@create_payment_session sample_client 7 1) w1
      = (Raise (HTTPException 400 "Order already paid"), w1).
Proof.
  assert (Hfree : ¬ uniqueness_violated_by
                      (captured_by valid_request (session_row 1 "order_0" "PENDING"))
                      (payments (db one_session_world))).
  { intros Hc. apply existsb_capture_conflicts in Hc. discriminate Hc. }
  destruct (@captured_order_takes_no_new_session sample_client one_session_world 7
              valid_request (session_row 1 "order_0" "PENDING") _
              eq_refl ltac:(discriminate) eq_refl Hfree eq_refl eq_refl)
    as (w1 & Hrun & _ & Hblocked).
  exists w1. split; [exact Hrun|exact Hblocked].
Defined.

(** ** Attaching a payment to an order *)

Section AttachPayment.
Context `{py : PyStr}.


End AttachPayment.


(** ** A failed session is not reused *)


Section FailedSession.
Context `{client : RazorpayClient}.

End FailedSession.

